(** * PaddleFlow pipeline controller: a shallow embedding and its properties

    The embedded program is
    [pkg/apiserver/controller/pipeline/pipeline.go]: the create, update,
    list, get and delete operations on pipelines and pipeline versions.

    Go's multi-valued returns [(T, error)] are kept as pairs
    [T * option error] ([None] is [nil]), because the code sometimes goes on
    after a non-nil error.  The request context, the pipeline store and the
    file-system service are threaded through a small state monad.  Calls to
    the logger have no effect on any result and are left out. *)

From Stdlib Require Import String List ZArith Bool Lia Ascii.
From Stdlib Require Import DecimalString DecimalZ DecimalPos.
Import ListNotations.

Local Open Scope string_scope.
Local Open Scope Z_scope.

(** ** Errors *)

(** A Go [error].  [ErrRecordNotFound] is [gorm.ErrRecordNotFound];
    [ErrDuplicatedKey] is the store's report of a violated uniqueness
    constraint; [Errorf] is a value built by [fmt.Errorf] (or by
    [fmt.Sprintf] followed by [fmt.Errorf]), kept as its format string and
    arguments.  None of the format strings of the source uses [%w], so an
    [Errorf] never wraps its argument. *)
Inductive error : Type :=
| ErrRecordNotFound
| ErrDuplicatedKey
| Errorf (format : string) (args : list fmtarg)
with fmtarg : Type :=
| ArgS (s : string)
| ArgD (n : Z)
| ArgV (e : error).

(** [errors.Is(err, gorm.ErrRecordNotFound)] *)
Definition errors_Is_ErrRecordNotFound (err : error) : bool :=
  match err with
  | ErrRecordNotFound => true
  | _ => false
  end.

(** The error codes of package [common] that the controller writes into the
    request context; [NoCode] is the empty code of a fresh context. *)
Inductive Code : Type :=
| NoCode
| InvalidArguments
| MalformedYaml
| DuplicatedName
| InternalError
| AccessDenied
| InvalidMarker
| ActionNotAllowed.

(** ** Data *)

(** [logger.RequestContext], the two fields the controller uses. *)
Module RequestContext.
Record t := mk { UserName : string; ErrorCode : Code }.
Definition setErrorCode (c : Code) (ctx : t) : t :=
  mk (UserName ctx) c.
End RequestContext.

(** [model.Pipeline] *)
Module Pipeline.
Record t := mk {
  Pk : Z;
  ID : string;
  Name : string;
  Desc : string;
  UserName : string;
  CreatedAt : Z;
  UpdatedAt : Z
}.
Definition zero : t := mk 0 "" "" "" "" 0 0.
Definition setDesc (d : string) (p : t) : t :=
  mk (Pk p) (ID p) (Name p) d (UserName p) (CreatedAt p) (UpdatedAt p).
End Pipeline.

(** [model.PipelineVersion] *)
Module PipelineVersion.
Record t := mk {
  Pk : Z;
  ID : string;
  PipelineID : string;
  FsID : string;
  FsName : string;
  YamlPath : string;
  PipelineYaml : string;
  PipelineMd5 : string;
  UserName : string;
  CreatedAt : Z;
  UpdatedAt : Z
}.
Definition zero : t := mk 0 "" "" "" "" "" "" "" "" 0 0.
End PipelineVersion.

(** [models.Schedule], the fields the schedule query filters on. *)
Module Schedule.
Record t := mk {
  Pk : Z;
  ID : string;
  Name : string;
  PipelineID : string;
  PipelineVersionID : string;
  UserName : string;
  Status : string
}.
End Schedule.

(** [schema.WorkflowSource], the two fields the controller reads:
    [Name] and [FsOptions.MainFS.Name]. *)
Module WorkflowSource.
Record t := mk { Name : string; FsOptions_MainFS_Name : string }.
End WorkflowSource.

Module CreatePipelineRequest.
Record t := mk {
  FsName : string;
  YamlPath : string;
  YamlRaw : string;
  UserName : string;
  Desc : string
}.
Definition setYamlPath (p : string) (r : t) : t :=
  mk (FsName r) p (YamlRaw r) (UserName r) (Desc r).
End CreatePipelineRequest.

Module CreatePipelineResponse.
Record t := mk {
  PipelineID : string;
  PipelineVersionID : string;
  Name : string
}.
Definition zero : t := mk "" "" "".
End CreatePipelineResponse.

(** [type UpdatePipelineRequest = CreatePipelineRequest] *)
Module UpdatePipelineRequest := CreatePipelineRequest.

Module UpdatePipelineResponse.
Record t := mk { PipelineID : string; PipelineVersionID : string }.
Definition zero : t := mk "" "".
End UpdatePipelineResponse.

(** [common.MarkerInfo], embedded in the two listing responses. *)
Module MarkerInfo.
Record t := mk { NextMarker : string; IsTruncated : bool; MaxKeys : Z }.
Definition zero : t := mk "" false 0.
End MarkerInfo.

Module PipelineBrief.
Record t := mk {
  ID : string;
  Name : string;
  Desc : string;
  UserName : string;
  CreateTime : string;
  UpdateTime : string
}.
Definition zero : t := mk "" "" "" "" "" "".
End PipelineBrief.

Module PipelineVersionBrief.
Record t := mk {
  ID : string;
  PipelineID : string;
  FsName : string;
  YamlPath : string;
  PipelineYaml : string;
  UserName : string;
  CreateTime : string;
  UpdateTime : string
}.
Definition zero : t := mk "" "" "" "" "" "" "" "".
End PipelineVersionBrief.

(** A Go slice field is [None] when it is [nil] (the zero value) and
    [Some l] once it was made, also when [l] is empty. *)
Module ListPipelineResponse.
Record t := mk {
  Marker : MarkerInfo.t;
  PipelineList : option (list PipelineBrief.t)
}.
Definition zero : t := mk MarkerInfo.zero None.
End ListPipelineResponse.

Module PipelineVersions.
Record t := mk {
  Marker : MarkerInfo.t;
  PipelineVersionList : option (list PipelineVersionBrief.t)
}.
Definition zero : t := mk MarkerInfo.zero None.
End PipelineVersions.

Module GetPipelineResponse.
Record t := mk {
  Pipeline : PipelineBrief.t;
  PipelineVersions : PipelineVersions.t
}.
Definition zero : t := mk PipelineBrief.zero PipelineVersions.zero.
End GetPipelineResponse.

Module GetPipelineVersionResponse.
Record t := mk {
  Pipeline : PipelineBrief.t;
  PipelineVersion : PipelineVersionBrief.t
}.
Definition zero : t := mk PipelineBrief.zero PipelineVersionBrief.zero.
End GetPipelineVersionResponse.

(** ** Collaborators *)

(** What the controller calls outside its own file, apart from the store.
    [E] is the state of the file-system service: resolving a file system
    and reading a file go to that service, and two calls need not see it in
    the same state. *)
Record Collaborators (E : Type) := {
  (* util.MaxDescLength *)
  MaxDescLength : nat;
  (* common.IsRootUser *)
  IsRootUser : string -> bool;
  (* common.NoAccessError and common.ResourceTypePipeline *)
  NoAccessError : string -> string -> string -> error;
  ResourceTypePipeline : string;
  (* base64.StdEncoding.DecodeString *)
  DecodeString : string -> string * option error;
  (* common.GetMD5Hash *)
  GetMD5Hash : string -> string;
  (* common.EncryptPk and common.DecryptPk *)
  EncryptPk : Z -> string * option error;
  DecryptPk : string -> Z * option error;
  (* time.Time.Format, layout first *)
  time_Format : string -> Z -> string;
  (* schema.GetWorkflowSource *)
  GetWorkflowSource : string -> WorkflowSource.t * option error;
  (* pipeline.NewWorkflow: source, run name, extra (the parameter map is
     empty and the callbacks are fixed at the one call); the result tells
     whether the returned pointer is non-nil *)
  NewWorkflow :
    WorkflowSource.t -> string -> list (string * string) -> bool * option error;
  (* pplcommon.WfExtraInfoKey... *)
  WfExtraInfoKeyFSUserName : string;
  WfExtraInfoKeyFsName : string;
  WfExtraInfoKeyFsID : string;
  (* CheckFsAndGetID (same package, another file) *)
  CheckFsAndGetID : string -> string -> string -> E -> (string * option error) * E;
  (* handler.ReadFileFromFs *)
  ReadFileFromFs : string -> string -> E -> (string * option error) * E;
  (* models.ScheduleNotFinalStatusList *)
  ScheduleNotFinalStatusList : list string
}.

Arguments MaxDescLength {E} _.
Arguments IsRootUser {E} _ _.
Arguments NoAccessError {E} _ _ _ _.
Arguments ResourceTypePipeline {E} _.
Arguments DecodeString {E} _ _.
Arguments GetMD5Hash {E} _ _.
Arguments EncryptPk {E} _ _.
Arguments DecryptPk {E} _ _.
Arguments time_Format {E} _ _ _.
Arguments GetWorkflowSource {E} _ _.
Arguments NewWorkflow {E} _ _ _ _.
Arguments WfExtraInfoKeyFSUserName {E} _.
Arguments WfExtraInfoKeyFsName {E} _.
Arguments WfExtraInfoKeyFsID {E} _.
Arguments CheckFsAndGetID {E} _ _ _ _ _.
Arguments ReadFileFromFs {E} _ _ _ _.
Arguments ScheduleNotFinalStatusList {E} _.

(** The interface [storage.Pipeline] (and [models.ListSchedule], a query on
    the same database) over a store state [St].  Queries read the state;
    the four writes return the new one. *)
Record PipelineStore (St : Type) := {
  store_GetPipeline : string -> string -> St -> Pipeline.t * option error;
  store_GetPipelineByID : string -> St -> Pipeline.t * option error;
  store_GetPipelineVersion :
    string -> string -> St -> PipelineVersion.t * option error;
  store_CountPipelineVersion : string -> St -> Z * option error;
  store_ListPipeline :
    Z -> Z -> list string -> list string -> St -> list Pipeline.t * option error;
  store_IsLastPipelinePk :
    Z -> list string -> list string -> St -> bool * option error;
  store_ListPipelineVersion :
    string -> Z -> Z -> list string -> St ->
    list PipelineVersion.t * option error;
  store_IsLastPipelineVersionPk :
    string -> Z -> list string -> St -> bool * option error;
  store_CreatePipeline :
    Pipeline.t -> PipelineVersion.t -> St ->
    (string * string * option error) * St;
  store_UpdatePipeline :
    Pipeline.t -> PipelineVersion.t -> St ->
    (string * string * option error) * St;
  store_DeletePipeline : string -> St -> option error * St;
  store_DeletePipelineVersion : string -> string -> St -> option error * St;
  (* pk, maxKeys, pplFilter, pplVersionFilter, userFilter, scheduleFilter,
     nameFilter, statusFilter *)
  models_ListSchedule :
    Z -> Z -> list string -> list string -> list string -> list string ->
    list string -> list string -> St -> list Schedule.t * option error
}.

Arguments store_GetPipeline {St} _ _ _ _.
Arguments store_GetPipelineByID {St} _ _ _.
Arguments store_GetPipelineVersion {St} _ _ _ _.
Arguments store_CountPipelineVersion {St} _ _ _.
Arguments store_ListPipeline {St} _ _ _ _ _ _.
Arguments store_IsLastPipelinePk {St} _ _ _ _ _.
Arguments store_ListPipelineVersion {St} _ _ _ _ _ _.
Arguments store_IsLastPipelineVersionPk {St} _ _ _ _ _.
Arguments store_CreatePipeline {St} _ _ _ _.
Arguments store_UpdatePipeline {St} _ _ _ _.
Arguments store_DeletePipeline {St} _ _ _.
Arguments store_DeletePipelineVersion {St} _ _ _ _.
Arguments models_ListSchedule {St} _ _ _ _ _ _ _ _ _ _.

(** ** The state the controller runs in *)

Module World.
Record t (St E : Type) := mk {
  ctx : RequestContext.t;
  store : St;
  fsenv : E
}.
Arguments mk {St E} _ _ _.
Arguments ctx {St E} _.
Arguments store {St E} _.
Arguments fsenv {St E} _.
End World.

Definition M (St E A : Type) : Type := World.t St E -> A * World.t St E.

Definition ret {St E A} (a : A) : M St E A := fun w => (a, w).

Definition bind {St E A B} (m : M St E A) (k : A -> M St E B) : M St E B :=
  fun w => let (a, w') := m w in k a w'.

Notation "x <- c1 ;; c2" := (bind c1 (fun x => c2))
  (at level 61, c1 at next level, right associativity).
Notation "' pat <- c1 ;; c2" :=
  (bind c1 (fun x => match x with pat => c2 end))
  (at level 61, pat pattern, c1 at next level, right associativity).
Notation "c1 ;; c2" := (bind c1 (fun _ => c2))
  (at level 61, right associativity).

(** [ctx.ErrorCode = c] *)
Definition setErrorCode {St E} (c : Code) : M St E unit :=
  fun w =>
    (tt, World.mk (RequestContext.setErrorCode c (World.ctx w))
                  (World.store w) (World.fsenv w)).

(** [ctx.UserName] *)
Definition ctxUserName {St E} : M St E string :=
  fun w => (RequestContext.UserName (World.ctx w), w).

Definition readStore {St E A} (q : St -> A) : M St E A :=
  fun w => (q (World.store w), w).

Definition writeStore {St E A} (f : St -> A * St) : M St E A :=
  fun w =>
    let (a, s) := f (World.store w) in
    (a, World.mk (World.ctx w) s (World.fsenv w)).

Definition callFs {St E A} (f : E -> A * E) : M St E A :=
  fun w =>
    let (a, e) := f (World.fsenv w) in
    (a, World.mk (World.ctx w) (World.store w) e).

(** [m[k] = v] on a Go map kept as an association list. *)
Fixpoint map_set (k v : string) (m : list (string * string))
  : list (string * string) :=
  match m with
  | [] => [(k, v)]
  | (k', v') :: m' =>
      if String.eqb k k' then (k, v) :: m' else (k', v') :: map_set k v m'
  end.

(** ** The controller *)

Section Controller.

Context {St E : Type}.
Variable C : Collaborators E.
Variable storage : PipelineStore St.

Local Abbreviation M := (M St E).

(** The layout both [updateFrom...] methods format their times with. *)
Definition timeLayout : string := "2006-01-02 15:04:05".

Definition updateFromPipelineModel (pipeline : Pipeline.t) : PipelineBrief.t :=
  PipelineBrief.mk
    (Pipeline.ID pipeline)
    (Pipeline.Name pipeline)
    (Pipeline.Desc pipeline)
    (Pipeline.UserName pipeline)
    (time_Format C timeLayout (Pipeline.CreatedAt pipeline))
    (time_Format C timeLayout (Pipeline.UpdatedAt pipeline)).

Definition updateFromPipelineVersionModel (pipelineVersion : PipelineVersion.t)
  : PipelineVersionBrief.t :=
  PipelineVersionBrief.mk
    (PipelineVersion.ID pipelineVersion)
    (PipelineVersion.PipelineID pipelineVersion)
    (PipelineVersion.FsName pipelineVersion)
    (PipelineVersion.YamlPath pipelineVersion)
    (PipelineVersion.PipelineYaml pipelineVersion)
    (PipelineVersion.UserName pipelineVersion)
    (time_Format C timeLayout (PipelineVersion.CreatedAt pipelineVersion))
    (time_Format C timeLayout (PipelineVersion.UpdatedAt pipelineVersion)).

Definition getPipelineYamlFromYamlRaw (request : CreatePipelineRequest.t)
  : string * option error :=
  let '(pipelineYaml, err) :=
    DecodeString C (CreatePipelineRequest.YamlRaw request) in
  match err with
  | Some err =>
      ("", Some (Errorf "Decode raw yaml[%s] failed. err:%v"
                   [ArgS (CreatePipelineRequest.YamlRaw request); ArgV err]))
  | None => (pipelineYaml, None)
  end.

(** The request is passed by pointer and its [YamlPath] may be filled in:
    the request as the callee leaves it is returned with the result. *)
Definition getPipelineYamlFromYamlPath (request : CreatePipelineRequest.t)
  : M (CreatePipelineRequest.t * (string * option error)) :=
  let request :=
    if String.eqb (CreatePipelineRequest.YamlPath request) ""
    then CreatePipelineRequest.setYamlPath "./run.yaml" request
    else request in
  if String.eqb (CreatePipelineRequest.FsName request) "" then
    ret (request,
         ("", Some (Errorf
            "cannot get pipeline: fsname shall not be empty while you specified YamlPath[%s]"
            [ArgS (CreatePipelineRequest.YamlPath request)])))
  else
    userName <- ctxUserName ;;
    '(fsID, err) <- callFs (CheckFsAndGetID C userName
                              (CreatePipelineRequest.UserName request)
                              (CreatePipelineRequest.FsName request)) ;;
    match err with
    | Some err => ret (request, ("", Some err))
    | None =>
        '(pipelineYaml, err) <-
          callFs (ReadFileFromFs C fsID (CreatePipelineRequest.YamlPath request)) ;;
        match err with
        | Some err =>
            ret (request,
                 ("", Some (Errorf "readFileFromFs[%s] from fs[%s] failed. err:%v"
                              [ArgS (CreatePipelineRequest.YamlPath request);
                               ArgS fsID; ArgV err])))
        | None => ret (request, (pipelineYaml, None))
        end
    end.

Definition getPipelineYaml (request : CreatePipelineRequest.t)
  : M (CreatePipelineRequest.t * (string * option error)) :=
  if negb (String.eqb (CreatePipelineRequest.YamlRaw request) "") then
    if negb (String.eqb (CreatePipelineRequest.YamlPath request) "") then
      ret (request,
           ("", Some (Errorf "you can only specify one of YamlPath and YamlRaw" [])))
    else if negb (String.eqb (CreatePipelineRequest.FsName request) "") then
      ret (request,
           ("", Some (Errorf "you cannot specify FsName while you specified YamlRaw" [])))
    else ret (request, getPipelineYamlFromYamlRaw request)
  else getPipelineYamlFromYamlPath request.

Definition validateWorkflowForPipeline
    (pipelineYaml ctxUsername reqUsername : string)
  : M (string * option error) :=
  let '(wfs, err) := GetWorkflowSource C pipelineYaml in
  match err with
  | Some err => ret ("", Some err)
  | None =>
      let extra := [(WfExtraInfoKeyFSUserName C, "")] in
      let validate (extra : list (string * string)) : M (string * option error) :=
        let '(wfPtr, err) := NewWorkflow C wfs "validatePipeline" extra in
        match err with
        | Some err => ret ("", Some err)
        | None =>
            if negb wfPtr then
              ret ("", Some (Errorf "NewWorkflow ptr for pipeline[%s] is nil"
                               [ArgS (WorkflowSource.Name wfs)]))
            else ret (WorkflowSource.Name wfs, None)
        end in
      if negb (String.eqb (WorkflowSource.FsOptions_MainFS_Name wfs) "") then
        let extra :=
          map_set (WfExtraInfoKeyFsName C)
                  (WorkflowSource.FsOptions_MainFS_Name wfs) extra in
        '(fsID, err) <- callFs (CheckFsAndGetID C ctxUsername reqUsername
                                  (WorkflowSource.FsOptions_MainFS_Name wfs)) ;;
        match err with
        | Some err => ret ("", Some err)
        | None => validate (map_set (WfExtraInfoKeyFsID C) fsID extra)
        end
      else validate extra
  end.

Definition CheckPipelinePermission (userName pipelineID : string) (st : St)
  : bool * Pipeline.t * option error :=
  let '(ppl, err) := store_GetPipelineByID storage pipelineID st in
  match err with
  | Some err =>
      if errors_Is_ErrRecordNotFound err then
        (false, Pipeline.zero,
         Some (Errorf "pipeline[%s] not exist" [ArgS pipelineID]))
      else
        (false, Pipeline.zero,
         Some (Errorf "get pipeline[%s] failed, err:[%s]"
                 [ArgS pipelineID; ArgV err]))
  | None =>
      if negb (IsRootUser C userName)
         && negb (String.eqb userName (Pipeline.UserName ppl))
      then (false, Pipeline.zero, None)
      else (true, ppl, None)
  end.

Definition CheckPipelineVersionPermission
    (userName pipelineID pipelineVersionID : string) (st : St)
  : bool * Pipeline.t * PipelineVersion.t * option error :=
  let '(hasAuth, ppl, err) := CheckPipelinePermission userName pipelineID st in
  match err with
  | Some err => (false, Pipeline.zero, PipelineVersion.zero, Some err)
  | None =>
      if negb hasAuth then (false, Pipeline.zero, PipelineVersion.zero, None)
      else
        let '(pipelineVersion, err) :=
          store_GetPipelineVersion storage pipelineID pipelineVersionID st in
        match err with
        | Some err =>
            if errors_Is_ErrRecordNotFound err then
              (false, Pipeline.zero, PipelineVersion.zero,
               Some (Errorf "pipeline[%s] version[%s] not exist"
                       [ArgS pipelineID; ArgS pipelineVersionID]))
            else
              (false, Pipeline.zero, PipelineVersion.zero,
               Some (Errorf "get pipeline[%s] version[%s] failed, err:[%s]"
                       [ArgS pipelineID; ArgS pipelineVersionID; ArgV err]))
        | None => (true, ppl, pipelineVersion, None)
        end
  end.

Definition CreatePipeline (request : CreatePipelineRequest.t)
  : M (CreatePipelineResponse.t * option error) :=
  if (MaxDescLength C <? String.length (CreatePipelineRequest.Desc request))%nat
  then
    setErrorCode InvalidArguments ;;
    ret (CreatePipelineResponse.zero,
         Some (Errorf "desc too long, should be less than %d"
                 [ArgD (Z.of_nat (MaxDescLength C))]))
  else
    '(request, (pipelineYaml, err)) <- getPipelineYaml request ;;
    match err with
    | Some err =>
        let err := Errorf "create pipeline failed. err:%v" [ArgV err] in
        setErrorCode InvalidArguments ;;
        ret (CreatePipelineResponse.zero, Some err)
    | None =>
    userName <- ctxUserName ;;
    '(pplName, err) <-
      validateWorkflowForPipeline pipelineYaml userName
        (CreatePipelineRequest.UserName request) ;;
    match err with
    | Some err =>
        setErrorCode MalformedYaml ;;
        ret (CreatePipelineResponse.zero,
             Some (Errorf "validateWorkflowForPipeline failed. err:%v" [ArgV err]))
    | None =>
    '(_, err) <- readStore (store_GetPipeline storage pplName userName) ;;
    match err with
    | None =>
        setErrorCode DuplicatedName ;;
        ret (CreatePipelineResponse.zero,
             Some (Errorf
                "CreatePipeline failed: user[%s] already has pipeline[%s], cannot create again, use update instead!"
                [ArgS userName; ArgS pplName]))
    | Some err =>
    if negb (errors_Is_ErrRecordNotFound err) then
      setErrorCode InternalError ;;
      ret (CreatePipelineResponse.zero,
           Some (Errorf "CreatePipeline failed: %s" [ArgV err]))
    else
    let ppl :=
      Pipeline.mk 0 "" pplName (CreatePipelineRequest.Desc request) userName 0 0 in
    let yamlMd5 := GetMD5Hash C pipelineYaml in
    fsID <-
      (if negb (String.eqb (CreatePipelineRequest.FsName request) "") then
         '(fsID, err) <- callFs (CheckFsAndGetID C userName
                                   (CreatePipelineRequest.UserName request)
                                   (CreatePipelineRequest.FsName request)) ;;
         match err with
         | Some _ =>
             (* the code is set and the error logged; there is no return *)
             setErrorCode InvalidArguments ;; ret fsID
         | None => ret fsID
         end
       else ret "") ;;
    let pplVersion :=
      PipelineVersion.mk 0 "" "" fsID
        (CreatePipelineRequest.FsName request)
        (CreatePipelineRequest.YamlPath request)
        pipelineYaml yamlMd5 userName 0 0 in
    '(pplID, pplVersionID, err) <- writeStore (store_CreatePipeline storage ppl pplVersion) ;;
    match err with
    | Some err =>
        setErrorCode InternalError ;;
        ret (CreatePipelineResponse.zero,
             Some (Errorf "create pipeline failed inserting db. error:%s" [ArgV err]))
    | None =>
        ret (CreatePipelineResponse.mk pplID pplVersionID pplName, None)
    end
    end
    end
    end.

Definition UpdatePipeline (request : UpdatePipelineRequest.t) (pipelineID : string)
  : M (UpdatePipelineResponse.t * option error) :=
  if (MaxDescLength C <? String.length (CreatePipelineRequest.Desc request))%nat
  then
    setErrorCode InvalidArguments ;;
    ret (UpdatePipelineResponse.zero,
         Some (Errorf "desc too long, should be less than %d"
                 [ArgD (Z.of_nat (MaxDescLength C))]))
  else
    '(request, (pipelineYaml, err)) <- getPipelineYaml request ;;
    match err with
    | Some err =>
        setErrorCode InvalidArguments ;;
        let err := Errorf "update pipeline failed. err:%v" [ArgV err] in
        ret (UpdatePipelineResponse.zero, Some err)
    | None =>
    userName <- ctxUserName ;;
    '(pplName, err) <-
      validateWorkflowForPipeline pipelineYaml userName
        (CreatePipelineRequest.UserName request) ;;
    match err with
    | Some err =>
        setErrorCode MalformedYaml ;;
        ret (UpdatePipelineResponse.zero,
             Some (Errorf "validateWorkflowForPipeline failed. err:%v" [ArgV err]))
    | None =>
    '(hasAuth, ppl, err) <- readStore (CheckPipelinePermission userName pipelineID) ;;
    match err with
    | Some err =>
        setErrorCode InvalidArguments ;;
        ret (UpdatePipelineResponse.zero,
             Some (Errorf "update pipeline[%s] failed. err:%v"
                     [ArgS pipelineID; ArgV err]))
    | None =>
    if negb hasAuth then
      setErrorCode AccessDenied ;;
      ret (UpdatePipelineResponse.zero,
           Some (Errorf "update pipeline[%s] failed. Access denied for user[%s]"
                   [ArgS pipelineID; ArgS userName]))
    else
    if negb (String.eqb (Pipeline.Name ppl) pplName) then
      setErrorCode InvalidArguments ;;
      ret (UpdatePipelineResponse.zero,
           Some (Errorf
              "update pipeline failed, pplname[%s] in yaml not the same as [%s] of pipeline[%s]"
              [ArgS pplName; ArgS (Pipeline.Name ppl); ArgS pipelineID]))
    else
    let ppl := Pipeline.setDesc (CreatePipelineRequest.Desc request) ppl in
    let yamlMd5 := GetMD5Hash C pipelineYaml in
    fsID <-
      (if negb (String.eqb (CreatePipelineRequest.FsName request) "") then
         '(fsID, err) <- callFs (CheckFsAndGetID C userName
                                   (CreatePipelineRequest.UserName request)
                                   (CreatePipelineRequest.FsName request)) ;;
         match err with
         | Some _ =>
             (* the code is set and the error logged; there is no return *)
             setErrorCode InternalError ;; ret fsID
         | None => ret fsID
         end
       else ret "") ;;
    let pplVersion :=
      PipelineVersion.mk 0 "" pipelineID fsID
        (CreatePipelineRequest.FsName request)
        (CreatePipelineRequest.YamlPath request)
        pipelineYaml yamlMd5 userName 0 0 in
    '(pplID, pplVersionID, err) <- writeStore (store_UpdatePipeline storage ppl pplVersion) ;;
    match err with
    | Some err =>
        setErrorCode InternalError ;;
        ret (UpdatePipelineResponse.zero,
             Some (Errorf "update pipeline failed inserting db. error:%s" [ArgV err]))
    | None =>
        ret (UpdatePipelineResponse.mk pplID pplVersionID, None)
    end
    end
    end
    end.

Definition ListPipeline (marker : string) (maxKeys : Z)
    (userFilter nameFilter : list string)
  : M (ListPipelineResponse.t * option error) :=
  let '(pk, err) :=
    if negb (String.eqb marker "") then DecryptPk C marker else (0, None) in
  match err with
  | Some err =>
      setErrorCode InvalidMarker ;;
      ret (ListPipelineResponse.zero,
           Some (Errorf "DecryptPk marker[%s] failed. err:[%s]"
                   [ArgS marker; ArgV err]))
  | None =>
  userName <- ctxUserName ;;
  let query (userFilter : list string) : M (ListPipelineResponse.t * option error) :=
    '(pipelineList, err) <-
      readStore (store_ListPipeline storage pk maxKeys userFilter nameFilter) ;;
    match err with
    | Some err =>
        setErrorCode InternalError ;;
        ret (ListPipelineResponse.zero, Some err)
    | None =>
    let respond (nextMarker : string) (isTruncated : bool)
      : M (ListPipelineResponse.t * option error) :=
      ret (ListPipelineResponse.mk
             (MarkerInfo.mk nextMarker isTruncated maxKeys)
             (Some (map updateFromPipelineModel pipelineList)),
           None) in
    if (0 <? length pipelineList)%nat then
      let ppl := last pipelineList Pipeline.zero in
      '(isLastPk, err) <-
        readStore (store_IsLastPipelinePk storage (Pipeline.Pk ppl) userFilter nameFilter) ;;
      match err with
      | Some err =>
          setErrorCode InternalError ;;
          ret (ListPipelineResponse.zero,
               Some (Errorf "get last pipeline Pk failed. err:[%s]" [ArgV err]))
      | None =>
          if negb isLastPk then
            let '(nextMarker, err) := EncryptPk C (Pipeline.Pk ppl) in
            match err with
            | Some err =>
                setErrorCode InternalError ;;
                ret (ListPipelineResponse.zero,
                     Some (Errorf "EncryptPk error. pk:[%d] error:[%s]"
                             [ArgD (Pipeline.Pk ppl); ArgV err]))
            | None => respond nextMarker true
            end
          else respond "" false
      end
    else respond "" false
    end in
  if negb (IsRootUser C userName) then
    if negb (length userFilter =? 0)%nat then
      setErrorCode InvalidArguments ;;
      ret (ListPipelineResponse.zero,
           Some (Errorf "only root user can set userFilter!" []))
    else query [userName]
  else query userFilter
  end.

Definition GetPipeline (pipelineID marker : string) (maxKeys : Z)
    (fsFilter : list string)
  : M (GetPipelineResponse.t * option error) :=
  '(ppl, err) <- readStore (store_GetPipelineByID storage pipelineID) ;;
  match err with
  | Some err =>
      (if errors_Is_ErrRecordNotFound err
       then setErrorCode InvalidArguments
       else setErrorCode InternalError) ;;
      ret (GetPipelineResponse.zero,
           Some (Errorf "get pipeline[%s] failed, err: %v"
                   [ArgS pipelineID; ArgV err]))
  | None =>
  userName <- ctxUserName ;;
  if negb (IsRootUser C userName)
     && negb (String.eqb userName (Pipeline.UserName ppl))
  then
    setErrorCode AccessDenied ;;
    ret (GetPipelineResponse.zero,
         Some (NoAccessError C userName (ResourceTypePipeline C) pipelineID))
  else
  let pipeline := updateFromPipelineModel ppl in
  let '(pk, err) :=
    if negb (String.eqb marker "") then DecryptPk C marker else (0, None) in
  match err with
  | Some err =>
      setErrorCode InvalidMarker ;;
      ret (GetPipelineResponse.zero,
           Some (Errorf "DecryptPk marker[%s] failed. err:[%s]"
                   [ArgS marker; ArgV err]))
  | None =>
  '(pipelineVersionList, err) <-
    readStore (store_ListPipelineVersion storage pipelineID pk maxKeys fsFilter) ;;
  match err with
  | Some err =>
      setErrorCode InternalError ;;
      ret (GetPipelineResponse.zero, Some err)
  | None =>
  let respond (nextMarker : string) (isTruncated : bool)
    : M (GetPipelineResponse.t * option error) :=
    ret (GetPipelineResponse.mk pipeline
           (PipelineVersions.mk
              (MarkerInfo.mk nextMarker isTruncated maxKeys)
              (Some (map updateFromPipelineVersionModel pipelineVersionList))),
         None) in
  if (0 <? length pipelineVersionList)%nat then
    let pplVersion := last pipelineVersionList PipelineVersion.zero in
    '(isLastPPlVersionPk, err) <-
      readStore (store_IsLastPipelineVersionPk storage pipelineID
                   (PipelineVersion.Pk pplVersion) fsFilter) ;;
    match err with
    | Some err =>
        setErrorCode InternalError ;;
        ret (GetPipelineResponse.zero,
             Some (Errorf "get last pplversion for ppl[%s] failed. err:[%s]"
                     [ArgS pipelineID; ArgV err]))
    | None =>
        if negb isLastPPlVersionPk then
          let '(nextMarker, err) := EncryptPk C (PipelineVersion.Pk pplVersion) in
          match err with
          | Some err =>
              setErrorCode InternalError ;;
              ret (GetPipelineResponse.zero,
                   Some (Errorf "EncryptPk error. pk:[%d] error:[%s]"
                           [ArgD (PipelineVersion.Pk pplVersion); ArgV err]))
          | None => respond nextMarker true
          end
        else respond "" false
    end
  else respond "" false
  end
  end
  end.

Definition GetPipelineVersion (pipelineID pipelineVersionID : string)
  : M (GetPipelineVersionResponse.t * option error) :=
  userName <- ctxUserName ;;
  '(hasAuth, ppl, pplVersion, err) <-
    readStore (CheckPipelineVersionPermission userName pipelineID pipelineVersionID) ;;
  match err with
  | Some err =>
      setErrorCode InternalError ;;
      ret (GetPipelineVersionResponse.zero,
           Some (Errorf "get pipeline[%s] version[%s] failed. err:%v"
                   [ArgS pipelineID; ArgS pipelineVersionID; ArgV err]))
  | None =>
      if negb hasAuth then
        setErrorCode AccessDenied ;;
        ret (GetPipelineVersionResponse.zero,
             Some (Errorf
                "get pipeline[%s] version[%s] failed. Access denied for user[%s]"
                [ArgS pipelineID; ArgS pipelineVersionID; ArgS userName]))
      else
        ret (GetPipelineVersionResponse.mk
               (updateFromPipelineModel ppl)
               (updateFromPipelineVersionModel pplVersion),
             None)
  end.

Definition DeletePipeline (pipelineID : string) : M (option error) :=
  userName <- ctxUserName ;;
  '(hasAuth, _, err) <- readStore (CheckPipelinePermission userName pipelineID) ;;
  match err with
  | Some err =>
      setErrorCode InternalError ;;
      ret (Some (Errorf "delete pipeline[%s] failed. err:%v"
                   [ArgS pipelineID; ArgV err]))
  | None =>
  if negb hasAuth then
    setErrorCode AccessDenied ;;
    ret (Some (Errorf "delete pipeline[%s] failed. Access denied for user[%s]"
                 [ArgS pipelineID; ArgS userName]))
  else
  '(scheduleList, err) <-
    readStore (models_ListSchedule storage 0 0 [pipelineID] [] [] [] []
                 (ScheduleNotFinalStatusList C)) ;;
  match err with
  | Some err =>
      setErrorCode InternalError ;;
      ret (Some (Errorf "models list schedule failed. err:[%s]" [ArgV err]))
  | None =>
  if (0 <? length scheduleList)%nat then
    setErrorCode ActionNotAllowed ;;
    ret (Some (Errorf
           "delete pipeline[%s] failed, there are running schedules, pls stop first"
           [ArgS pipelineID]))
  else
  err <- writeStore (store_DeletePipeline storage pipelineID) ;;
  match err with
  | Some err =>
      setErrorCode InternalError ;;
      ret (Some (Errorf "models delete pipeline[%s] failed. error:%s"
                   [ArgS pipelineID; ArgV err]))
  | None => ret None
  end
  end
  end.

Definition DeletePipelineVersion (pipelineID pipelineVersionID : string)
  : M (option error) :=
  userName <- ctxUserName ;;
  '(hasAuth, _, _, err) <-
    readStore (CheckPipelineVersionPermission userName pipelineID pipelineVersionID) ;;
  match err with
  | Some err =>
      setErrorCode InternalError ;;
      ret (Some (Errorf "delete pipeline[%s] version[%s] failed. err:%v"
                   [ArgS pipelineID; ArgS pipelineVersionID; ArgV err]))
  | None =>
  if negb hasAuth then
    setErrorCode AccessDenied ;;
    ret (Some (Errorf
           "delete pipeline[%s] version[%s] failed. Access denied for user[%s]"
           [ArgS pipelineID; ArgS pipelineVersionID; ArgS userName]))
  else
  '(count, err) <- readStore (store_CountPipelineVersion storage pipelineID) ;;
  match err with
  | Some err =>
      setErrorCode InternalError ;;
      ret (Some (Errorf "delete pipeline[%s] version[%s] failed. err:%v"
                   [ArgS pipelineID; ArgS pipelineVersionID; ArgV err]))
  | None =>
  if count =? 1 then
    setErrorCode ActionNotAllowed ;;
    ret (Some (Errorf
           "delete pipeline[%s] version[%s] failed. only one pipeline version left, pls delete pipeline instead"
           [ArgS pipelineID; ArgS pipelineVersionID]))
  else
  '(scheduleList, err) <-
    readStore (models_ListSchedule storage 0 0 [pipelineID] [pipelineVersionID] [] [] []
                 (ScheduleNotFinalStatusList C)) ;;
  match err with
  | Some err =>
      setErrorCode InternalError ;;
      ret (Some (Errorf
             "models list schedule for pipeline[%s] version[%s] failed. err:[%s]"
             [ArgS pipelineID; ArgS pipelineVersionID; ArgV err]))
  | None =>
  if (0 <? length scheduleList)%nat then
    setErrorCode ActionNotAllowed ;;
    ret (Some (Errorf
           "delete pipeline[%s] version[%s] failed, there are running schedules, pls stop first"
           [ArgS pipelineVersionID; ArgS pipelineID]))
  else
  err <- writeStore (store_DeletePipelineVersion storage pipelineID pipelineVersionID) ;;
  match err with
  | Some err =>
      setErrorCode InternalError ;;
      ret (Some (Errorf "delete pipeline[%s] version[%s] failed. error:%s"
                   [ArgS pipelineID; ArgS pipelineVersionID; ArgV err]))
  | None => ret None
  end
  end
  end
  end.

End Controller.

(** ** The cursor codec *)

(** The decimal text of an integer, as [strconv.FormatInt(n, 10)] gives it. *)
Definition decimal (n : Z) : string := NilZero.string_of_int (Z.to_int n).

(** Modelled from the spec: [common.EncryptPk] and [common.DecryptPk] are not
    part of the controller's file.  The specification asks for a reversible,
    deterministic transform between a signed 64-bit row key and a marker
    string that rejects malformed input, and accepts any scheme that does
    so.  Here the marker is the decimal text of the key; decoding accepts
    exactly the texts that encoding produces. *)
Module CursorCodec.

Definition minInt64 : Z := - 2 ^ 63.
Definition maxInt64 : Z := 2 ^ 63 - 1.

Definition isInt64 (k : Z) : bool := (minInt64 <=? k) && (k <=? maxInt64).

Definition EncryptPk (pk : Z) : string * option error := (decimal pk, None).

Definition DecryptPk (marker : string) : Z * option error :=
  match NilZero.int_of_string marker with
  | Some d =>
      let pk := Z.of_int d in
      if isInt64 pk && String.eqb (fst (EncryptPk pk)) marker
      then (pk, None)
      else (0, Some (Errorf "invalid marker[%s]" [ArgS marker]))
  | None => (0, Some (Errorf "invalid marker[%s]" [ArgS marker]))
  end.

End CursorCodec.

(** ** A reference store *)

(** Modelled from the spec: the implementation of [storage.Pipeline] and of
    [models.ListSchedule] is not part of the controller's file.  The store
    below follows the data model of the specification: rows carry a
    store-assigned, strictly increasing row key; a definition is created
    together with its first version; an update changes the description and
    inserts a version; deleting a definition removes it and all its versions;
    deleting a version removes one row; (owner, name) is unique; listings are
    in ascending row-key order after the cursor, restricted by the filters
    and bounded by the page size; the is-last-key query tells whether no row
    matching the filters has a larger key.  A page size of [0] puts no bound,
    which is what the delete guards ask the schedule query for.  Identifiers
    are derived from the row key. *)
Module RefStore.

Record t := mk {
  pipelines : list Pipeline.t;
  versions : list PipelineVersion.t;
  schedules : list Schedule.t;
  nextPk : Z;
  now : Z
}.

Definition empty : t := mk [] [] [] 1 0.

Definition pipelineIDOf (pk : Z) : string := "ppl-" ++ decimal pk.
Definition versionIDOf (pk : Z) : string := decimal pk.

(** An empty filter lets every row through. *)
Definition passes (filter : list string) (v : string) : bool :=
  match filter with
  | [] => true
  | _ => existsb (String.eqb v) filter
  end.

Definition page {A} (maxKeys : Z) (rows : list A) : list A :=
  if 0 <? maxKeys then firstn (Z.to_nat maxKeys) rows else rows.

Definition pipelineMatches (userFilter nameFilter : list string) (p : Pipeline.t)
  : bool :=
  passes userFilter (Pipeline.UserName p) && passes nameFilter (Pipeline.Name p).

Definition versionMatches (pipelineID : string) (fsFilter : list string)
    (v : PipelineVersion.t) : bool :=
  String.eqb (PipelineVersion.PipelineID v) pipelineID
  && passes fsFilter (PipelineVersion.FsName v).

Definition GetPipeline (name userName : string) (st : t)
  : Pipeline.t * option error :=
  match find (fun p => String.eqb (Pipeline.Name p) name
                       && String.eqb (Pipeline.UserName p) userName)
             (pipelines st) with
  | Some p => (p, None)
  | None => (Pipeline.zero, Some ErrRecordNotFound)
  end.

Definition GetPipelineByID (id : string) (st : t) : Pipeline.t * option error :=
  match find (fun p => String.eqb (Pipeline.ID p) id) (pipelines st) with
  | Some p => (p, None)
  | None => (Pipeline.zero, Some ErrRecordNotFound)
  end.

Definition isVersion (pipelineID pipelineVersionID : string)
    (v : PipelineVersion.t) : bool :=
  String.eqb (PipelineVersion.PipelineID v) pipelineID
  && String.eqb (PipelineVersion.ID v) pipelineVersionID.

Definition GetPipelineVersion (pipelineID pipelineVersionID : string) (st : t)
  : PipelineVersion.t * option error :=
  match find (isVersion pipelineID pipelineVersionID) (versions st) with
  | Some v => (v, None)
  | None => (PipelineVersion.zero, Some ErrRecordNotFound)
  end.

Definition versionsOf (pipelineID : string) (vs : list PipelineVersion.t)
  : list PipelineVersion.t :=
  filter (fun v => String.eqb (PipelineVersion.PipelineID v) pipelineID) vs.

Definition CountPipelineVersion (pipelineID : string) (st : t)
  : Z * option error :=
  (Z.of_nat (length (versionsOf pipelineID (versions st))), None).

Definition ListPipeline (pk maxKeys : Z) (userFilter nameFilter : list string)
    (st : t) : list Pipeline.t * option error :=
  (page maxKeys
     (filter (fun p => (pk <? Pipeline.Pk p)
                       && pipelineMatches userFilter nameFilter p)
             (pipelines st)),
   None).

Definition IsLastPipelinePk (pk : Z) (userFilter nameFilter : list string)
    (st : t) : bool * option error :=
  (forallb (fun p => negb (pipelineMatches userFilter nameFilter p)
                     || (Pipeline.Pk p <=? pk))
           (pipelines st),
   None).

Definition ListPipelineVersion (pipelineID : string) (pk maxKeys : Z)
    (fsFilter : list string) (st : t)
  : list PipelineVersion.t * option error :=
  (page maxKeys
     (filter (fun v => (pk <? PipelineVersion.Pk v)
                       && versionMatches pipelineID fsFilter v)
             (versions st)),
   None).

Definition IsLastPipelineVersionPk (pipelineID : string) (pk : Z)
    (fsFilter : list string) (st : t) : bool * option error :=
  (forallb (fun v => negb (versionMatches pipelineID fsFilter v)
                     || (PipelineVersion.Pk v <=? pk))
           (versions st),
   None).

Definition stampVersion (pk : Z) (pipelineID : string) (time : Z)
    (v : PipelineVersion.t) : PipelineVersion.t :=
  PipelineVersion.mk pk (versionIDOf pk) pipelineID
    (PipelineVersion.FsID v) (PipelineVersion.FsName v)
    (PipelineVersion.YamlPath v) (PipelineVersion.PipelineYaml v)
    (PipelineVersion.PipelineMd5 v) (PipelineVersion.UserName v) time time.

Definition CreatePipeline (ppl : Pipeline.t) (pplVersion : PipelineVersion.t)
    (st : t) : (string * string * option error) * t :=
  match snd (GetPipeline (Pipeline.Name ppl) (Pipeline.UserName ppl) st) with
  | None => (("", "", Some ErrDuplicatedKey), st)
  | Some _ =>
      let pk := nextPk st in
      let id := pipelineIDOf pk in
      let row :=
        Pipeline.mk pk id (Pipeline.Name ppl) (Pipeline.Desc ppl)
          (Pipeline.UserName ppl) (now st) (now st) in
      let vrow := stampVersion (pk + 1) id (now st) pplVersion in
      ((id, PipelineVersion.ID vrow, None),
       mk (pipelines st ++ [row]) (versions st ++ [vrow]) (schedules st)
          (pk + 2) (now st + 1))
  end.

Definition describe (id desc : string) (time : Z) (p : Pipeline.t) : Pipeline.t :=
  if String.eqb (Pipeline.ID p) id
  then Pipeline.mk (Pipeline.Pk p) (Pipeline.ID p) (Pipeline.Name p) desc
         (Pipeline.UserName p) (Pipeline.CreatedAt p) time
  else p.

Definition UpdatePipeline (ppl : Pipeline.t) (pplVersion : PipelineVersion.t)
    (st : t) : (string * string * option error) * t :=
  match snd (GetPipelineByID (Pipeline.ID ppl) st) with
  | Some err => (("", "", Some err), st)
  | None =>
      let pk := nextPk st in
      let vrow := stampVersion pk (Pipeline.ID ppl) (now st) pplVersion in
      ((Pipeline.ID ppl, PipelineVersion.ID vrow, None),
       mk (map (describe (Pipeline.ID ppl) (Pipeline.Desc ppl) (now st))
               (pipelines st))
          (versions st ++ [vrow]) (schedules st) (pk + 1) (now st + 1))
  end.

Definition DeletePipeline (id : string) (st : t) : option error * t :=
  (None,
   mk (filter (fun p => negb (String.eqb (Pipeline.ID p) id)) (pipelines st))
      (filter (fun v => negb (String.eqb (PipelineVersion.PipelineID v) id))
              (versions st))
      (schedules st) (nextPk st) (now st + 1)).

(** Removes the first row that [f] holds of. *)
Fixpoint removeFirst {A} (f : A -> bool) (l : list A) : list A :=
  match l with
  | [] => []
  | x :: l' => if f x then l' else x :: removeFirst f l'
  end.

Definition DeletePipelineVersion (pipelineID pipelineVersionID : string)
    (st : t) : option error * t :=
  (None,
   mk (pipelines st)
      (removeFirst (isVersion pipelineID pipelineVersionID) (versions st))
      (schedules st) (nextPk st) (now st + 1)).

Definition ListSchedule (pk maxKeys : Z)
    (pplFilter pplVersionFilter userFilter scheduleFilter nameFilter
       statusFilter : list string)
    (st : t) : list Schedule.t * option error :=
  (page maxKeys
     (filter (fun s => (pk <? Schedule.Pk s)
                       && passes pplFilter (Schedule.PipelineID s)
                       && passes pplVersionFilter (Schedule.PipelineVersionID s)
                       && passes userFilter (Schedule.UserName s)
                       && passes scheduleFilter (Schedule.ID s)
                       && passes nameFilter (Schedule.Name s)
                       && passes statusFilter (Schedule.Status s))
             (schedules st)),
   None).

Definition storage : PipelineStore t := {|
  store_GetPipeline := GetPipeline;
  store_GetPipelineByID := GetPipelineByID;
  store_GetPipelineVersion := GetPipelineVersion;
  store_CountPipelineVersion := CountPipelineVersion;
  store_ListPipeline := ListPipeline;
  store_IsLastPipelinePk := IsLastPipelinePk;
  store_ListPipelineVersion := ListPipelineVersion;
  store_IsLastPipelineVersionPk := IsLastPipelineVersionPk;
  store_CreatePipeline := CreatePipeline;
  store_UpdatePipeline := UpdatePipeline;
  store_DeletePipeline := DeletePipeline;
  store_DeletePipelineVersion := DeletePipelineVersion;
  models_ListSchedule := ListSchedule
|}.

(** Every definition in the store has at least one version. *)
Definition everyPipelineHasVersion (st : t) : Prop :=
  forall p, In p (pipelines st) ->
    (1 <= length (versionsOf (Pipeline.ID p) (versions st)))%nat.

End RefStore.

(** ** The operations as one request type *)

Inductive Operation : Type :=
| OpCreatePipeline (request : CreatePipelineRequest.t)
| OpUpdatePipeline (request : UpdatePipelineRequest.t) (pipelineID : string)
| OpListPipeline (marker : string) (maxKeys : Z) (userFilter nameFilter : list string)
| OpGetPipeline (pipelineID marker : string) (maxKeys : Z) (fsFilter : list string)
| OpGetPipelineVersion (pipelineID pipelineVersionID : string)
| OpDeletePipeline (pipelineID : string)
| OpDeletePipelineVersion (pipelineID pipelineVersionID : string).

Inductive Response : Type :=
| RespCreatePipeline (r : CreatePipelineResponse.t)
| RespUpdatePipeline (r : UpdatePipelineResponse.t)
| RespListPipeline (r : ListPipelineResponse.t)
| RespGetPipeline (r : GetPipelineResponse.t)
| RespGetPipelineVersion (r : GetPipelineVersionResponse.t)
| RespNone.

(** The zero value of the response type of an operation. *)
Definition zeroResponse (op : Operation) : Response :=
  match op with
  | OpCreatePipeline _ => RespCreatePipeline CreatePipelineResponse.zero
  | OpUpdatePipeline _ _ => RespUpdatePipeline UpdatePipelineResponse.zero
  | OpListPipeline _ _ _ _ => RespListPipeline ListPipelineResponse.zero
  | OpGetPipeline _ _ _ _ => RespGetPipeline GetPipelineResponse.zero
  | OpGetPipelineVersion _ _ =>
      RespGetPipelineVersion GetPipelineVersionResponse.zero
  | OpDeletePipeline _ => RespNone
  | OpDeletePipelineVersion _ _ => RespNone
  end.

Definition respond {St E A} (wrap : A -> Response) (m : M St E (A * option error))
  : M St E (Response * option error) :=
  '(r, err) <- m ;; ret (wrap r, err).

Definition serve {St E} (C : Collaborators E) (storage : PipelineStore St)
    (op : Operation) : M St E (Response * option error) :=
  match op with
  | OpCreatePipeline request =>
      respond RespCreatePipeline (CreatePipeline C storage request)
  | OpUpdatePipeline request pipelineID =>
      respond RespUpdatePipeline (UpdatePipeline C storage request pipelineID)
  | OpListPipeline marker maxKeys userFilter nameFilter =>
      respond RespListPipeline
        (ListPipeline C storage marker maxKeys userFilter nameFilter)
  | OpGetPipeline pipelineID marker maxKeys fsFilter =>
      respond RespGetPipeline (GetPipeline C storage pipelineID marker maxKeys fsFilter)
  | OpGetPipelineVersion pipelineID pipelineVersionID =>
      respond RespGetPipelineVersion
        (GetPipelineVersion C storage pipelineID pipelineVersionID)
  | OpDeletePipeline pipelineID =>
      err <- DeletePipeline C storage pipelineID ;; ret (RespNone, err)
  | OpDeletePipelineVersion pipelineID pipelineVersionID =>
      err <- DeletePipelineVersion C storage pipelineID pipelineVersionID ;;
      ret (RespNone, err)
  end.

(** ** A concrete environment to run the controller in *)

Module Demo.

(** The file-system service as the list of answers it will give to the
    next resolutions, in order; an exhausted service knows no file
    system.  Every file holds the text [demo]. *)
Definition Fs : Type := list (string * option error).

Definition resolveFs (userName fsUserName fsName : string) (e : Fs)
  : (string * option error) * Fs :=
  match e with
  | answer :: e' => (answer, e')
  | [] => (("", Some (Errorf "fs[%s] not exist" [ArgS fsName])), [])
  end.

Definition readFile (fsID path : string) (e : Fs)
  : (string * option error) * Fs :=
  (("demo", None), e).

(** Payloads are taken as they are, and a workflow text is its own name. *)
Definition collab : Collaborators Fs := {|
  MaxDescLength := 1024;
  IsRootUser := fun u => String.eqb u "root";
  NoAccessError := fun u r id =>
    Errorf "user[%s] has no access to resource[%s] with Name[%s]"
      [ArgS u; ArgS r; ArgS id];
  ResourceTypePipeline := "pipeline";
  DecodeString := fun s => (s, None);
  GetMD5Hash := fun s => s;
  EncryptPk := CursorCodec.EncryptPk;
  DecryptPk := CursorCodec.DecryptPk;
  time_Format := fun _ t => decimal t;
  GetWorkflowSource := fun yaml => (WorkflowSource.mk yaml "", None);
  NewWorkflow := fun _ _ _ => (true, None);
  WfExtraInfoKeyFSUserName := "FSUserName";
  WfExtraInfoKeyFsName := "FsName";
  WfExtraInfoKeyFsID := "FsID";
  CheckFsAndGetID := resolveFs;
  ReadFileFromFs := readFile;
  ScheduleNotFinalStatusList := ["running"]
|}.

Definition world (userName : string) (st : RefStore.t) (e : Fs)
  : World.t RefStore.t Fs :=
  World.mk (RequestContext.mk userName NoCode) st e.

Definition inline (yamlRaw desc : string) : CreatePipelineRequest.t :=
  CreatePipelineRequest.mk "" "" yamlRaw "" desc.

(** The store after [alice] created [demo] and then updated it once. *)
Definition oneVersion : RefStore.t :=
  World.store
    (snd (CreatePipeline collab RefStore.storage (inline "demo" "x")
            (world "alice" RefStore.empty []))).

Definition twoVersions : RefStore.t :=
  World.store
    (snd (UpdatePipeline collab RefStore.storage (inline "demo" "y") "ppl-1"
            (world "alice" oneVersion []))).

Definition schedule (pipelineID pipelineVersionID status : string) : Schedule.t :=
  Schedule.mk 1 "schedule-1" "nightly" pipelineID pipelineVersionID "alice" status.

Definition withSchedule (s : Schedule.t) (st : RefStore.t) : RefStore.t :=
  RefStore.mk (RefStore.pipelines st) (RefStore.versions st)
    (s :: RefStore.schedules st) (RefStore.nextPk st) (RefStore.now st).

End Demo.

(** ** The writes of an operation *)

(** The store after an operation is the store before it, or the result of
    one write; a version is deleted only behind the permission check and
    when the version count is not one. *)
Inductive store_step {St E} (C : Collaborators E) (storage : PipelineStore St)
    (userName : string) (st : St) : St -> Prop :=
| step_none : store_step C storage userName st st
| step_create ppl pplVersion :
    store_step C storage userName st
      (snd (store_CreatePipeline storage ppl pplVersion st))
| step_update ppl pplVersion :
    store_step C storage userName st
      (snd (store_UpdatePipeline storage ppl pplVersion st))
| step_delete pipelineID :
    store_step C storage userName st
      (snd (store_DeletePipeline storage pipelineID st))
| step_delete_version pipelineID pipelineVersionID ppl pplVersion count :
    CheckPipelineVersionPermission C storage userName pipelineID
      pipelineVersionID st
    = (true, ppl, pplVersion, None) ->
    store_CountPipelineVersion storage pipelineID st = (count, None) ->
    count <> 1 ->
    store_step C storage userName st
      (snd (store_DeletePipelineVersion storage pipelineID pipelineVersionID st)).

(** The collaborators with another marker decoder. *)
Definition withDecryptPk {E} (decode : string -> Z * option error)
    (C : Collaborators E) : Collaborators E := {|
  MaxDescLength := MaxDescLength C;
  IsRootUser := IsRootUser C;
  NoAccessError := NoAccessError C;
  ResourceTypePipeline := ResourceTypePipeline C;
  DecodeString := DecodeString C;
  GetMD5Hash := GetMD5Hash C;
  EncryptPk := EncryptPk C;
  DecryptPk := decode;
  time_Format := time_Format C;
  GetWorkflowSource := GetWorkflowSource C;
  NewWorkflow := NewWorkflow C;
  WfExtraInfoKeyFSUserName := WfExtraInfoKeyFSUserName C;
  WfExtraInfoKeyFsName := WfExtraInfoKeyFsName C;
  WfExtraInfoKeyFsID := WfExtraInfoKeyFsID C;
  CheckFsAndGetID := CheckFsAndGetID C;
  ReadFileFromFs := ReadFileFromFs C;
  ScheduleNotFinalStatusList := ScheduleNotFinalStatusList C
|}.

(** ** Stores and requests of the examples *)

Module DemoListing.

(** The store after [alice] created [demo] and then [other]. *)
Definition twoPipelines : RefStore.t :=
  World.store
    (snd (CreatePipeline Demo.collab RefStore.storage (Demo.inline "other" "z")
            (Demo.world "alice" Demo.oneVersion []))).

Definition firstPage :=
  ListPipeline Demo.collab RefStore.storage "" 1 [] []
    (Demo.world "alice" twoPipelines []).

Definition lastPage :=
  ListPipeline Demo.collab RefStore.storage "1" 5 [] []
    (Demo.world "alice" twoPipelines []).

End DemoListing.

(** A store that loses a race: the create of another request is in flight;
    it is not visible to the queries of this request and commits just
    before this request's own write. *)
Module RacingStore.

Definition t : Type := RefStore.t * option (Pipeline.t * PipelineVersion.t).

Definition commit (st : t) : RefStore.t :=
  match snd st with
  | Some (ppl, pplVersion) => snd (RefStore.CreatePipeline ppl pplVersion (fst st))
  | None => fst st
  end.

Definition read {A} (query : RefStore.t -> A) (st : t) : A := query (fst st).

Definition write {A} (f : RefStore.t -> A * RefStore.t) (st : t) : A * t :=
  let (a, s) := f (commit st) in (a, (s, None)).

Definition storage : PipelineStore t := {|
  store_GetPipeline := fun n u => read (RefStore.GetPipeline n u);
  store_GetPipelineByID := fun id => read (RefStore.GetPipelineByID id);
  store_GetPipelineVersion := fun p v => read (RefStore.GetPipelineVersion p v);
  store_CountPipelineVersion := fun p => read (RefStore.CountPipelineVersion p);
  store_ListPipeline := fun pk n u f => read (RefStore.ListPipeline pk n u f);
  store_IsLastPipelinePk := fun pk u f => read (RefStore.IsLastPipelinePk pk u f);
  store_ListPipelineVersion :=
    fun p pk n f => read (RefStore.ListPipelineVersion p pk n f);
  store_IsLastPipelineVersionPk :=
    fun p pk f => read (RefStore.IsLastPipelineVersionPk p pk f);
  store_CreatePipeline := fun p v => write (RefStore.CreatePipeline p v);
  store_UpdatePipeline := fun p v => write (RefStore.UpdatePipeline p v);
  store_DeletePipeline := fun id => write (RefStore.DeletePipeline id);
  store_DeletePipelineVersion :=
    fun p v => write (RefStore.DeletePipelineVersion p v);
  models_ListSchedule :=
    fun pk n a b c d e f => read (RefStore.ListSchedule pk n a b c d e f)
|}.

(** [alice]'s other request creating [demo] is in flight on an empty store. *)
Definition demoInFlight : t :=
  (RefStore.empty,
   Some (Pipeline.mk 0 "" "demo" "x" "alice" 0 0,
         PipelineVersion.mk 0 "" "" "" "" "" "demo" "demo" "alice" 0 0)).

End RacingStore.

Module DemoSchedules.

(** [demo] has two versions and a running schedule on the first one. *)
Definition running : RefStore.t :=
  Demo.withSchedule (Demo.schedule "ppl-1" "2" "running") Demo.twoVersions.

(** The same, the schedule having ended. *)
Definition ended : RefStore.t :=
  Demo.withSchedule (Demo.schedule "ppl-1" "2" "success") Demo.twoVersions.

End DemoSchedules.

Module DemoFs.

(** The file system [fs1] is there when the source is read and gone when
    it is resolved again for the version row. *)
Definition vanishing : Demo.Fs :=
  [("fs-alice-fs1", None);
   ("", Some (Errorf "fs[%s] not exist" [ArgS "fs1"]))].

Definition fromFs : CreatePipelineRequest.t :=
  CreatePipelineRequest.mk "fs1" "" "" "" "x".

End DemoFs.

(** ** Definitions for the further properties *)

(** ** The error codes an operation can end with *)

Definition errorCodes (op : Operation) : list Code :=
  match op with
  | OpCreatePipeline _ =>
      [InvalidArguments; MalformedYaml; DuplicatedName; InternalError]
  | OpUpdatePipeline _ _ =>
      [InvalidArguments; MalformedYaml; AccessDenied; InternalError]
  | OpListPipeline _ _ _ _ => [InvalidMarker; InvalidArguments; InternalError]
  | OpGetPipeline _ _ _ _ =>
      [InvalidArguments; InternalError; AccessDenied; InvalidMarker]
  | OpGetPipelineVersion _ _ => [InternalError; AccessDenied]
  | OpDeletePipeline _ => [InternalError; AccessDenied; ActionNotAllowed]
  | OpDeletePipelineVersion _ _ => [InternalError; AccessDenied; ActionNotAllowed]
  end.

(** The operations that only read. *)
Definition isQuery (op : Operation) : bool :=
  match op with
  | OpListPipeline _ _ _ _ | OpGetPipeline _ _ _ _ | OpGetPipelineVersion _ _ => true
  | _ => false
  end.

(** A description one byte longer than the bound of [Demo.collab]. *)
Definition longDesc : string := string_of_list_ascii (repeat "a"%char 1025).

(** The store write of an operation: [storeWrite storage op st r] holds when
    [r] is the error and the store that the write of [op] gives on [st]:
    the store's create for a create (of some rows), its update for an
    update, its delete of the requested definition or version for a
    delete.  Queries have no write. *)
Definition storeWrite {St} (storage : PipelineStore St) (op : Operation)
    (st : St) (r : option error * St) : Prop :=
  match op with
  | OpCreatePipeline _ =>
      exists ppl pplVersion,
        (snd (fst (store_CreatePipeline storage ppl pplVersion st)),
         snd (store_CreatePipeline storage ppl pplVersion st)) = r
  | OpUpdatePipeline _ pipelineID =>
      exists ppl pplVersion,
        PipelineVersion.PipelineID pplVersion = pipelineID
        /\ (snd (fst (store_UpdatePipeline storage ppl pplVersion st)),
            snd (store_UpdatePipeline storage ppl pplVersion st)) = r
  | OpDeletePipeline pipelineID => store_DeletePipeline storage pipelineID st = r
  | OpDeletePipelineVersion pipelineID pipelineVersionID =>
      store_DeletePipelineVersion storage pipelineID pipelineVersionID st = r
  | _ => False
  end.

(** The collaborators with another workflow parser. *)
Definition withGetWorkflowSource {E}
    (parse : string -> WorkflowSource.t * option error)
    (C : Collaborators E) : Collaborators E := {|
  MaxDescLength := MaxDescLength C;
  IsRootUser := IsRootUser C;
  NoAccessError := NoAccessError C;
  ResourceTypePipeline := ResourceTypePipeline C;
  DecodeString := DecodeString C;
  GetMD5Hash := GetMD5Hash C;
  EncryptPk := EncryptPk C;
  DecryptPk := DecryptPk C;
  time_Format := time_Format C;
  GetWorkflowSource := parse;
  NewWorkflow := NewWorkflow C;
  WfExtraInfoKeyFSUserName := WfExtraInfoKeyFSUserName C;
  WfExtraInfoKeyFsName := WfExtraInfoKeyFsName C;
  WfExtraInfoKeyFsID := WfExtraInfoKeyFsID C;
  CheckFsAndGetID := CheckFsAndGetID C;
  ReadFileFromFs := ReadFileFromFs C;
  ScheduleNotFinalStatusList := ScheduleNotFinalStatusList C
|}.

(** [Demo.collab] with a parser that accepts no workflow. *)
Definition strictCollab : Collaborators Demo.Fs :=
  withGetWorkflowSource
    (fun yaml =>
       (WorkflowSource.mk "" "", Some (Errorf "yaml: no workflow in [%s]" [ArgS yaml])))
    Demo.collab.

(** * Properties *)

(** ** Proof steps shared by the case analyses *)

Ltac unfold_monad :=
  unfold respond, bind, ret, setErrorCode, readStore, writeStore, callFs,
    ctxUserName in *.

(** Splits on the innermost scrutinee of the goal. *)
Ltac split_scrutinee :=
  match goal with
  | |- context [match ?x with _ => _ end] =>
      lazymatch x with
      | context [match _ with _ => _ end] => fail
      | _ => destruct x eqn:?
      end
  end.

Ltac split_all := repeat (split_scrutinee; simpl in * ).

Ltac unfold_controller :=
  unfold serve, CreatePipeline, UpdatePipeline, ListPipeline, GetPipeline,
    GetPipelineVersion, DeletePipeline, DeletePipelineVersion,
    CheckPipelineVersionPermission, CheckPipelinePermission,
    validateWorkflowForPipeline, getPipelineYaml, getPipelineYamlFromYamlPath,
    getPipelineYamlFromYamlRaw in *.

Ltac close_store_step :=
  simpl;
  match goal with
  | |- store_step _ _ _ ?st ?st => apply step_none
  | H : store_CreatePipeline _ _ _ _ = (_, ?s) |- store_step _ _ _ _ ?s =>
      apply (f_equal snd) in H; simpl in H; rewrite <- H; apply step_create
  | H : store_UpdatePipeline _ _ _ _ = (_, ?s) |- store_step _ _ _ _ ?s =>
      apply (f_equal snd) in H; simpl in H; rewrite <- H; apply step_update
  | H : store_DeletePipeline _ _ _ = (_, ?s) |- store_step _ _ _ _ ?s =>
      apply (f_equal snd) in H; simpl in H; rewrite <- H; apply step_delete
  end.

Ltac close_cursor_page :=
  simpl; split; [| split];
  [ intros e0 He0; simpl in He0; first [discriminate He0 | inversion He0; reflexivity]
  | intros Hp; first [discriminate Hp | inversion Hp; subst; simpl; reflexivity]
  | intros resp w' Hok; first [discriminate Hok | split; [reflexivity |]];
    revert Hok; split_all; intros H; inversion H; reflexivity ].

Ltac open_exists := repeat match goal with |- exists _, _ => eexists end.

Ltac close_store_write :=
  simpl;
  match goal with
  | |- ?st = ?st \/ _ => left; reflexivity
  | |- _ /\ ?st = ?st \/ _ => left; split; reflexivity
  | H : store_CreatePipeline _ _ _ _ = _ |- _ =>
      right; open_exists; rewrite H; reflexivity
  | H : store_UpdatePipeline _ _ _ _ = _ |- _ =>
      right; open_exists; split; [| rewrite H; reflexivity]; reflexivity
  | H : store_DeletePipeline _ _ _ = _ |- _ =>
      right; open_exists; simpl; first [reflexivity | rewrite H; reflexivity]
  | H : store_DeletePipelineVersion _ _ _ _ = _ |- _ =>
      right; open_exists; simpl; first [reflexivity | rewrite H; reflexivity]
  end.

(** ** The example stores *)

Example demo_oneVersion :
  map Pipeline.ID (RefStore.pipelines Demo.oneVersion) = ["ppl-1"]
  /\ map PipelineVersion.ID (RefStore.versions Demo.oneVersion) = ["2"].
Proof. vm_compute. split; reflexivity. Qed.

Example demo_twoVersions :
  map Pipeline.Desc (RefStore.pipelines Demo.twoVersions) = ["y"]
  /\ map PipelineVersion.ID (RefStore.versions Demo.twoVersions) = ["2"; "3"].
Proof. vm_compute. split; reflexivity. Qed.

(** ** Errors come with the zero response *)

(** C10: whenever an operation of the service returns an error, the response
    returned with it is the zero value of the operation's response type. *)
Theorem error_response_is_zero :
  forall {St E} (C : Collaborators E) (storage : PipelineStore St)
         (op : Operation) (w w' : World.t St E) (resp : Response) (err : error),
    serve C storage op w = ((resp, Some err), w') ->
    resp = zeroResponse op.
Proof.
  intros St E C storage op w w' resp err.
  destruct op; unfold_controller; unfold_monad; simpl;
    split_all; intros H; inversion H; subst; try reflexivity.
Qed.

Lemma error_response_is_zero_witness :
  fst (fst (serve Demo.collab RefStore.storage
              (OpGetPipeline "ppl-404" "" 10 [])
              (Demo.world "alice" RefStore.empty [])))
  = RespGetPipeline GetPipelineResponse.zero.
Proof.
  eapply (error_response_is_zero Demo.collab RefStore.storage
            (OpGetPipeline "ppl-404" "" 10 [])
            (Demo.world "alice" RefStore.empty [])).
  vm_compute. reflexivity.
Defined.

(** ** Resolving the source never touches the context or the store *)

Lemma getPipelineYaml_frame :
  forall {St E} (C : Collaborators E) (request : CreatePipelineRequest.t)
         (w : World.t St E),
    World.ctx (snd (getPipelineYaml C request w)) = World.ctx w
    /\ World.store (snd (getPipelineYaml C request w)) = World.store w.
Proof.
  intros. unfold_controller; unfold_monad; simpl.
  split_all; auto.
Qed.

Lemma validateWorkflowForPipeline_frame :
  forall {St E} (C : Collaborators E) (yaml u r : string) (w : World.t St E),
    World.ctx (snd (validateWorkflowForPipeline C yaml u r w)) = World.ctx w
    /\ World.store (snd (validateWorkflowForPipeline C yaml u r w)) = World.store w.
Proof.
  intros. unfold_controller; unfold_monad; simpl.
  split_all; auto.
Qed.

(** ** One source only, and the default path *)

Lemma eqb_empty_false : forall s : string, s <> "" -> String.eqb s "" = false.
Proof. intros s H. apply String.eqb_neq. exact H. Qed.

(** C4: a create or update request that carries an inline payload together
    with a path or with a file-system name fails with [InvalidArguments]
    (and leaves the store alone); a request that names a file system only
    reads ["./run.yaml"] and is served exactly as if it had asked for that
    path. *)
Theorem source_exclusivity :
  forall {St E} (C : Collaborators E) (storage : PipelineStore St)
         (request : CreatePipelineRequest.t) (pipelineID : string)
         (w : World.t St E),
    let failed :=
      World.mk (RequestContext.setErrorCode InvalidArguments (World.ctx w))
               (World.store w) (World.fsenv w) in
    (CreatePipelineRequest.YamlRaw request <> "" ->
     CreatePipelineRequest.YamlPath request <> ""
     \/ CreatePipelineRequest.FsName request <> "" ->
     (exists err,
        CreatePipeline C storage request w
        = ((CreatePipelineResponse.zero, Some err), failed))
     /\ (exists err,
           UpdatePipeline C storage request pipelineID w
           = ((UpdatePipelineResponse.zero, Some err), failed)))
    /\
    (CreatePipelineRequest.YamlRaw request = "" ->
     CreatePipelineRequest.YamlPath request = "" ->
     CreatePipelineRequest.FsName request <> "" ->
     CreatePipelineRequest.YamlPath (fst (fst (getPipelineYaml C request w)))
     = "./run.yaml"
     /\ CreatePipeline C storage request w
        = CreatePipeline C storage
            (CreatePipelineRequest.setYamlPath "./run.yaml" request) w
     /\ UpdatePipeline C storage request pipelineID w
        = UpdatePipeline C storage
            (CreatePipelineRequest.setYamlPath "./run.yaml" request) pipelineID w).
Proof.
  intros St E C storage request pipelineID w failed. subst failed.
  destruct request as [fsName yamlPath yamlRaw userName desc]; simpl.
  split.
  - intros Hraw Hother.
    apply eqb_empty_false in Hraw.
    unfold_controller; unfold_monad; simpl.
    split.
    + destruct (MaxDescLength C <? String.length desc)%nat; [eauto |].
      rewrite Hraw; simpl.
      destruct (String.eqb yamlPath "") eqn:Hp; simpl; [| eauto].
      destruct Hother as [Hother | Hother].
      * apply eqb_empty_false in Hother. congruence.
      * apply eqb_empty_false in Hother. rewrite Hother; simpl. eauto.
    + destruct (MaxDescLength C <? String.length desc)%nat; [eauto |].
      rewrite Hraw; simpl.
      destruct (String.eqb yamlPath "") eqn:Hp; simpl; [| eauto].
      destruct Hother as [Hother | Hother].
      * apply eqb_empty_false in Hother. congruence.
      * apply eqb_empty_false in Hother. rewrite Hother; simpl. eauto.
  - intros -> -> Hfs.
    apply eqb_empty_false in Hfs.
    unfold_controller; unfold_monad; simpl.
    rewrite Hfs; simpl.
    split; [| split].
    + split_all; reflexivity.
    + reflexivity.
    + reflexivity.
Qed.

Lemma source_exclusivity_witness :
  (exists err,
     CreatePipeline Demo.collab RefStore.storage
       (CreatePipelineRequest.mk "fs1" "" "demo" "" "x")
       (Demo.world "alice" RefStore.empty [])
     = ((CreatePipelineResponse.zero, Some err),
        World.mk (RequestContext.mk "alice" InvalidArguments) RefStore.empty []))
  /\ map PipelineVersion.YamlPath
       (RefStore.versions
          (World.store
             (snd (CreatePipeline Demo.collab RefStore.storage
                     (CreatePipelineRequest.mk "fs1" "" "" "" "x")
                     (Demo.world "alice" RefStore.empty
                        [("fs-alice-fs1", None); ("fs-alice-fs1", None)])))))
     = ["./run.yaml"].
Proof.
  split.
  - refine (proj1 (proj1 (source_exclusivity Demo.collab RefStore.storage
                     (CreatePipelineRequest.mk "fs1" "" "demo" "" "x") ""
                     (Demo.world "alice" RefStore.empty [])) _ _)).
    + simpl. discriminate.
    + right. simpl. discriminate.
  - rewrite (proj1 (proj2 (proj2 (source_exclusivity Demo.collab RefStore.storage
                     (CreatePipelineRequest.mk "fs1" "" "" "" "x") ""
                     (Demo.world "alice" RefStore.empty
                        [("fs-alice-fs1", None); ("fs-alice-fs1", None)]))
                     eq_refl eq_refl ltac:(simpl; discriminate)))).
    vm_compute. reflexivity.
Defined.

(** ** Truncation is decided by the is-last-key query *)

(** C1: a listing that returns a non-empty page (of definitions from
    [ListPipeline], of versions from [GetPipeline]) is marked truncated, and
    carries the marker that encodes the key of its last row, exactly when the
    store's is-last-key query, asked with the filters of the page query,
    answers no for that key; otherwise it carries no marker and is not
    truncated.  The page size plays no part in it. *)
Theorem truncation_is_exact :
  forall {St E} (C : Collaborators E) (storage : PipelineStore St)
         (w w' : World.t St E),
    (forall marker maxKeys userFilter nameFilter resp,
       ListPipeline C storage marker maxKeys userFilter nameFilter w
       = ((resp, None), w') ->
       ListPipelineResponse.PipelineList resp <> Some [] ->
       exists pk filter rows isLast,
         store_ListPipeline storage pk maxKeys filter nameFilter (World.store w)
         = (rows, None)
         /\ ListPipelineResponse.PipelineList resp
            = Some (map (updateFromPipelineModel C) rows)
         /\ store_IsLastPipelinePk storage
              (Pipeline.Pk (last rows Pipeline.zero)) filter nameFilter
              (World.store w)
            = (isLast, None)
         /\ MarkerInfo.IsTruncated (ListPipelineResponse.Marker resp)
            = negb isLast
         /\ MarkerInfo.NextMarker (ListPipelineResponse.Marker resp)
            = (if isLast then ""
               else fst (EncryptPk C (Pipeline.Pk (last rows Pipeline.zero)))))
    /\
    (forall pipelineID marker maxKeys fsFilter resp,
       GetPipeline C storage pipelineID marker maxKeys fsFilter w
       = ((resp, None), w') ->
       PipelineVersions.PipelineVersionList
         (GetPipelineResponse.PipelineVersions resp) <> Some [] ->
       exists pk rows isLast,
         store_ListPipelineVersion storage pipelineID pk maxKeys fsFilter
           (World.store w)
         = (rows, None)
         /\ PipelineVersions.PipelineVersionList
              (GetPipelineResponse.PipelineVersions resp)
            = Some (map (updateFromPipelineVersionModel C) rows)
         /\ store_IsLastPipelineVersionPk storage pipelineID
              (PipelineVersion.Pk (last rows PipelineVersion.zero)) fsFilter
              (World.store w)
            = (isLast, None)
         /\ MarkerInfo.IsTruncated
              (PipelineVersions.Marker (GetPipelineResponse.PipelineVersions resp))
            = negb isLast
         /\ MarkerInfo.NextMarker
              (PipelineVersions.Marker (GetPipelineResponse.PipelineVersions resp))
            = (if isLast then ""
               else fst (EncryptPk C
                           (PipelineVersion.Pk (last rows PipelineVersion.zero))))).
Proof.
  intros St E C storage w w'. split.
  - intros marker maxKeys userFilter nameFilter resp.
    unfold_controller; unfold_monad; simpl.
    split_all; intros H; inversion H; subst; clear H; simpl; intros Hne;
      try (match goal with
           | Hl : (0 <? length ?l)%nat = false |- _ =>
               destruct l; [exfalso; apply Hne; reflexivity | discriminate Hl]
           end);
      do 4 eexists; (split; [eassumption |]); (split; [reflexivity |]);
      (split; [eassumption |]);
      match goal with
      | Hb : negb ?b = _ |- _ => destruct b; try discriminate Hb; simpl
      end;
      try (match goal with Hk : EncryptPk _ _ = _ |- _ => rewrite Hk end);
      split; reflexivity.
  - intros pipelineID marker maxKeys fsFilter resp.
    unfold_controller; unfold_monad; simpl.
    split_all; intros H; inversion H; subst; clear H; simpl; intros Hne;
      try (match goal with
           | Hl : (0 <? length ?l)%nat = false |- _ =>
               destruct l; [exfalso; apply Hne; reflexivity | discriminate Hl]
           end);
      do 3 eexists; (split; [eassumption |]); (split; [reflexivity |]);
      (split; [eassumption |]);
      match goal with
      | Hb : negb ?b = _ |- _ => destruct b; try discriminate Hb; simpl
      end;
      try (match goal with Hk : EncryptPk _ _ = _ |- _ => rewrite Hk end);
      split; reflexivity.
Qed.

Example firstPage_is_truncated :
  let resp := fst (fst DemoListing.firstPage) in
  option_map (map PipelineBrief.Name) (ListPipelineResponse.PipelineList resp)
  = Some ["demo"]
  /\ ListPipelineResponse.Marker resp = MarkerInfo.mk "1" true 1.
Proof. vm_compute. split; reflexivity. Qed.

Example lastPage_is_short_and_final :
  let resp := fst (fst DemoListing.lastPage) in
  option_map (map PipelineBrief.Name) (ListPipelineResponse.PipelineList resp)
  = Some ["other"]
  /\ ListPipelineResponse.Marker resp = MarkerInfo.mk "" false 5.
Proof. vm_compute. split; reflexivity. Qed.

Lemma truncation_is_exact_witness :
  let resp := fst (fst DemoListing.lastPage) in
  let st := DemoListing.twoPipelines in
  exists pk filter rows isLast,
    RefStore.ListPipeline pk 5 filter [] st = (rows, None)
    /\ ListPipelineResponse.PipelineList resp
       = Some (map (updateFromPipelineModel Demo.collab) rows)
    /\ RefStore.IsLastPipelinePk
         (Pipeline.Pk (last rows Pipeline.zero)) filter [] st
       = (isLast, None)
    /\ MarkerInfo.IsTruncated (ListPipelineResponse.Marker resp) = negb isLast
    /\ MarkerInfo.NextMarker (ListPipelineResponse.Marker resp)
       = (if isLast then ""
          else fst (CursorCodec.EncryptPk (Pipeline.Pk (last rows Pipeline.zero)))).
Proof.
  intros resp st.
  apply (proj1 (truncation_is_exact Demo.collab RefStore.storage
                  (Demo.world "alice" DemoListing.twoPipelines [])
                  (snd DemoListing.lastPage))
           "1" 5 [] [] resp).
  - vm_compute. reflexivity.
  - vm_compute. discriminate.
Defined.

(** ** What an operation can do to the store *)

Lemma serve_store_step :
  forall {St E} (C : Collaborators E) (storage : PipelineStore St)
         (op : Operation) (w : World.t St E),
    store_step C storage (RequestContext.UserName (World.ctx w)) (World.store w)
      (World.store (snd (serve C storage op w))).
Proof.
  intros St E C storage op w.
  destruct op.
  - unfold_controller; unfold_monad; simpl. split_all; close_store_step.
  - unfold_controller; unfold_monad; simpl. split_all; close_store_step.
  - unfold_controller; unfold_monad; simpl. split_all; close_store_step.
  - unfold_controller; unfold_monad; simpl. split_all; close_store_step.
  - unfold_controller; unfold_monad; simpl. split_all; close_store_step.
  - unfold_controller; unfold_monad; simpl. split_all; close_store_step.
  - unfold serve, DeletePipelineVersion; unfold_monad; simpl.
    split_all; try close_store_step.
    all: match goal with
         | H : store_DeletePipelineVersion _ _ _ _ = (_, ?s) |- _ =>
             apply (f_equal snd) in H; simpl in H; rewrite <- H
         end.
    all: match goal with
         | Hb : negb ?b = false |- _ => destruct b; [| discriminate Hb]
         end.
    all: eapply step_delete_version; try eassumption.
    all: intros ->; discriminate.
Qed.

(** ** At least one version per definition *)

Section RefStoreInvariant.

Import RefStore.

Lemma versionsOf_app :
  forall id vs ws,
    versionsOf id (vs ++ ws) = (versionsOf id vs ++ versionsOf id ws)%list.
Proof. intros. unfold versionsOf. apply filter_app. Qed.

Lemma versionsOf_app_le :
  forall id vs ws,
    (length (versionsOf id vs) <= length (versionsOf id (vs ++ ws)%list))%nat.
Proof. intros. rewrite versionsOf_app, length_app. lia. Qed.

Lemma versionsOf_other_deleted :
  forall id other vs,
    id <> other ->
    versionsOf id
      (filter (fun v => negb (String.eqb (PipelineVersion.PipelineID v) other)) vs)
    = versionsOf id vs.
Proof.
  intros id other vs Hne. unfold versionsOf.
  induction vs as [| v vs IH]; simpl; [reflexivity |].
  destruct (String.eqb (PipelineVersion.PipelineID v) other) eqn:Ho; simpl.
  - apply String.eqb_eq in Ho.
    destruct (String.eqb (PipelineVersion.PipelineID v) id) eqn:Hi.
    + apply String.eqb_eq in Hi. congruence.
    + exact IH.
  - destruct (String.eqb (PipelineVersion.PipelineID v) id); [f_equal |]; exact IH.
Qed.

Lemma removeFirst_other :
  forall pid vid id vs,
    id <> pid ->
    versionsOf id (removeFirst (isVersion pid vid) vs) = versionsOf id vs.
Proof.
  intros pid vid id vs Hne. unfold versionsOf.
  induction vs as [| v vs IH]; simpl; [reflexivity |].
  destruct (isVersion pid vid v) eqn:Hv; simpl.
  - unfold isVersion in Hv. apply andb_prop in Hv. destruct Hv as [Hp _].
    apply String.eqb_eq in Hp.
    destruct (String.eqb (PipelineVersion.PipelineID v) id) eqn:Hi;
      [| reflexivity].
    apply String.eqb_eq in Hi. congruence.
  - destruct (String.eqb (PipelineVersion.PipelineID v) id); [f_equal |]; exact IH.
Qed.

Lemma removeFirst_found :
  forall pid vid vs v,
    find (isVersion pid vid) vs = Some v ->
    length (versionsOf pid vs)
    = Datatypes.S (length (versionsOf pid (removeFirst (isVersion pid vid) vs))).
Proof.
  intros pid vid vs v. unfold versionsOf.
  induction vs as [| x vs IH]; simpl; [discriminate |].
  destruct (isVersion pid vid x) eqn:Hx; simpl.
  - intros _. unfold isVersion in Hx. apply andb_prop in Hx.
    destruct Hx as [Hp _]. rewrite Hp. reflexivity.
  - intros Hf.
    destruct (String.eqb (PipelineVersion.PipelineID x) pid); simpl;
      rewrite (IH Hf); reflexivity.
Qed.

Lemma CreatePipeline_keeps_versions :
  forall ppl pplVersion st,
    everyPipelineHasVersion st ->
    everyPipelineHasVersion (snd (CreatePipeline ppl pplVersion st)).
Proof.
  intros ppl pplVersion st Hinv. unfold CreatePipeline.
  destruct (snd (GetPipeline (Pipeline.Name ppl) (Pipeline.UserName ppl) st));
    simpl; [| exact Hinv].
  intros p Hp. simpl in *.
  apply in_app_or in Hp. destruct Hp as [Hp | [<- | []]].
  - eapply Nat.le_trans; [apply (Hinv p Hp) | apply versionsOf_app_le].
  - simpl. rewrite versionsOf_app, length_app. simpl.
    rewrite String.eqb_refl. simpl. lia.
Qed.

Lemma UpdatePipeline_keeps_versions :
  forall ppl pplVersion st,
    everyPipelineHasVersion st ->
    everyPipelineHasVersion (snd (UpdatePipeline ppl pplVersion st)).
Proof.
  intros ppl pplVersion st Hinv. unfold UpdatePipeline.
  destruct (snd (GetPipelineByID (Pipeline.ID ppl) st)); simpl; [exact Hinv |].
  intros p Hp. simpl in *.
  apply in_map_iff in Hp. destruct Hp as (p0 & <- & Hp0).
  assert (Hid : Pipeline.ID (describe (Pipeline.ID ppl) (Pipeline.Desc ppl)
                               (now st) p0) = Pipeline.ID p0).
  { unfold describe. destruct (String.eqb (Pipeline.ID p0) (Pipeline.ID ppl));
      reflexivity. }
  rewrite Hid.
  eapply Nat.le_trans; [apply (Hinv p0 Hp0) | apply versionsOf_app_le].
Qed.

Lemma DeletePipeline_keeps_versions :
  forall id st,
    everyPipelineHasVersion st ->
    everyPipelineHasVersion (snd (DeletePipeline id st)).
Proof.
  intros id st Hinv p Hp. unfold DeletePipeline in *. simpl in *.
  apply filter_In in Hp. destruct Hp as [Hp Hne].
  apply negb_true_iff, String.eqb_neq in Hne.
  rewrite versionsOf_other_deleted by exact Hne.
  apply Hinv, Hp.
Qed.

Lemma permitted_version_exists :
  forall {E} (C : Collaborators E) userName pid vid st ppl v,
    CheckPipelineVersionPermission C storage userName pid vid st
    = (true, ppl, v, None) ->
    find (isVersion pid vid) (versions st) = Some v.
Proof.
  intros E C userName pid vid st ppl v.
  unfold CheckPipelineVersionPermission, CheckPipelinePermission; simpl.
  unfold GetPipelineVersion.
  split_all; intros H; inversion H; subst; reflexivity.
Qed.

Lemma DeletePipelineVersion_keeps_versions :
  forall {E} (C : Collaborators E) userName pid vid st ppl v count,
    CheckPipelineVersionPermission C storage userName pid vid st
    = (true, ppl, v, None) ->
    CountPipelineVersion pid st = (count, None) ->
    count <> 1 ->
    everyPipelineHasVersion st ->
    everyPipelineHasVersion (snd (DeletePipelineVersion pid vid st)).
Proof.
  intros E C userName pid vid st ppl v count Hperm Hcount Hne Hinv p Hp.
  apply permitted_version_exists in Hperm.
  unfold DeletePipelineVersion, CountPipelineVersion in *. simpl in *.
  inversion Hcount; subst; clear Hcount.
  destruct (String.eqb (Pipeline.ID p) pid) eqn:Hid.
  - apply String.eqb_eq in Hid. rewrite Hid.
    pose proof (removeFirst_found pid vid (versions st) v Hperm) as Hlen.
    lia.
  - apply String.eqb_neq in Hid.
    rewrite removeFirst_other by exact Hid.
    apply Hinv, Hp.
Qed.

Lemma store_step_keeps_versions :
  forall {E} (C : Collaborators E) userName st st',
    store_step C storage userName st st' ->
    everyPipelineHasVersion st ->
    everyPipelineHasVersion st'.
Proof.
  intros E C userName st st' Hstep Hinv.
  destruct Hstep; simpl.
  - exact Hinv.
  - apply CreatePipeline_keeps_versions, Hinv.
  - apply UpdatePipeline_keeps_versions, Hinv.
  - apply DeletePipeline_keeps_versions, Hinv.
  - eapply DeletePipelineVersion_keeps_versions; eassumption.
Qed.

End RefStoreInvariant.

(** C2: deleting a version is refused with [ActionNotAllowed], and nothing
    is written, when the caller passes the permission check and the version
    count of the definition is one; and on the reference store no operation
    of the service leaves a definition without a version. *)
Theorem last_version_is_kept :
  forall {St E} (C : Collaborators E) (storage : PipelineStore St)
         (pipelineID pipelineVersionID : string) (w : World.t St E)
         (ppl : Pipeline.t) (pplVersion : PipelineVersion.t)
         (op : Operation) (rw : World.t RefStore.t E),
    (CheckPipelineVersionPermission C storage
       (RequestContext.UserName (World.ctx w)) pipelineID pipelineVersionID
       (World.store w)
     = (true, ppl, pplVersion, None) ->
     store_CountPipelineVersion storage pipelineID (World.store w) = (1, None) ->
     exists err,
       DeletePipelineVersion C storage pipelineID pipelineVersionID w
       = (Some err,
          World.mk (RequestContext.setErrorCode ActionNotAllowed (World.ctx w))
                   (World.store w) (World.fsenv w)))
    /\
    (RefStore.everyPipelineHasVersion (World.store rw) ->
     RefStore.everyPipelineHasVersion
       (World.store (snd (serve C RefStore.storage op rw)))).
Proof.
  intros St E C storage pipelineID pipelineVersionID w ppl pplVersion op rw.
  split.
  - intros Hperm Hcount.
    unfold DeletePipelineVersion; unfold_monad; simpl.
    rewrite Hperm; simpl. rewrite Hcount; simpl. eauto.
  - intros Hinv.
    eapply store_step_keeps_versions; [apply serve_store_step | exact Hinv].
Qed.

Example oneVersion_has_versions : RefStore.everyPipelineHasVersion Demo.oneVersion.
Proof.
  intros p Hp. vm_compute in Hp. destruct Hp as [<- | []].
  vm_compute. apply le_n.
Qed.

Lemma last_version_is_kept_witness :
  (exists err,
     DeletePipelineVersion Demo.collab RefStore.storage "ppl-1" "2"
       (Demo.world "alice" Demo.oneVersion [])
     = (Some err,
        World.mk (RequestContext.mk "alice" ActionNotAllowed) Demo.oneVersion []))
  /\ RefStore.everyPipelineHasVersion
       (World.store
          (snd (serve Demo.collab RefStore.storage
                  (OpDeletePipelineVersion "ppl-1" "2")
                  (Demo.world "alice" Demo.oneVersion [])))).
Proof.
  pose proof (last_version_is_kept Demo.collab RefStore.storage "ppl-1" "2"
                (Demo.world "alice" Demo.oneVersion [])
                (hd Pipeline.zero (RefStore.pipelines Demo.oneVersion))
                (hd PipelineVersion.zero (RefStore.versions Demo.oneVersion))
                (OpDeletePipelineVersion "ppl-1" "2")
                (Demo.world "alice" Demo.oneVersion [])) as [Hguard Hinv].
  split.
  - apply Hguard; vm_compute; reflexivity.
  - apply Hinv. intros p Hp. vm_compute in Hp. destruct Hp as [<- | []].
    vm_compute. apply le_n.
Defined.

Example version_deleted_when_two :
  map PipelineVersion.ID
    (RefStore.versions
       (World.store
          (snd (DeletePipelineVersion Demo.collab RefStore.storage "ppl-1" "2"
                  (Demo.world "alice" Demo.twoVersions [])))))
  = ["3"].
Proof. vm_compute. reflexivity. Qed.

(** ** The duplicate-name check of create *)

Section CreateSteps.

Context {St E : Type}.
Variable C : Collaborators E.
Variable storage : PipelineStore St.
Variables request request' : CreatePipelineRequest.t.
Variables w w1 w2 : World.t St E.
Variables yaml name : string.

(** The steps of [CreatePipeline] before its existence lookup went
    through: the description is short enough, the source was resolved and
    the workflow validated to [name]. *)
Hypothesis desc_ok :
  (String.length (CreatePipelineRequest.Desc request) <= MaxDescLength C)%nat.
Hypothesis resolved :
  getPipelineYaml C request w = ((request', (yaml, None)), w1).
Hypothesis validated :
  validateWorkflowForPipeline C yaml (RequestContext.UserName (World.ctx w))
    (CreatePipelineRequest.UserName request') w1
  = ((name, None), w2).

Lemma resolved_frame :
  World.ctx w1 = World.ctx w /\ World.store w1 = World.store w.
Proof.
  pose proof (getPipelineYaml_frame C request w) as H.
  rewrite resolved in H. exact H.
Qed.

Lemma validated_frame :
  World.ctx w2 = World.ctx w /\ World.store w2 = World.store w.
Proof.
  pose proof (validateWorkflowForPipeline_frame C yaml
                (RequestContext.UserName (World.ctx w))
                (CreatePipelineRequest.UserName request') w1) as H.
  rewrite validated in H. destruct resolved_frame as [Hc Hs].
  rewrite Hc, Hs in H. exact H.
Qed.

Lemma resolved_desc :
  CreatePipelineRequest.Desc request' = CreatePipelineRequest.Desc request.
Proof.
  pose proof resolved as H. clear validated.
  unfold_controller; unfold_monad.
  destruct request as [f p r u d]; simpl in *.
  revert H. split_all; intros H; inversion H; subst; reflexivity.
Qed.

(** [CreatePipeline] from its existence lookup on. *)
Lemma CreatePipeline_from_lookup :
  let userName := RequestContext.UserName (World.ctx w) in
  CreatePipeline C storage request w
  = (let '(_, err) := store_GetPipeline storage name userName (World.store w) in
     match err with
     | None =>
         ((CreatePipelineResponse.zero,
           Some (Errorf
              "CreatePipeline failed: user[%s] already has pipeline[%s], cannot create again, use update instead!"
              [ArgS userName; ArgS name])),
          World.mk (RequestContext.setErrorCode DuplicatedName (World.ctx w))
                   (World.store w) (World.fsenv w2))
     | Some err =>
         if negb (errors_Is_ErrRecordNotFound err) then
           ((CreatePipelineResponse.zero,
             Some (Errorf "CreatePipeline failed: %s" [ArgV err])),
            World.mk (RequestContext.setErrorCode InternalError (World.ctx w))
                     (World.store w) (World.fsenv w2))
         else
           let ppl :=
             Pipeline.mk 0 "" name (CreatePipelineRequest.Desc request)
               userName 0 0 in
           let '(fsID, w3) :=
             (if negb (String.eqb (CreatePipelineRequest.FsName request') "")
              then
                let '((fsID, err), e) :=
                  CheckFsAndGetID C userName
                    (CreatePipelineRequest.UserName request')
                    (CreatePipelineRequest.FsName request') (World.fsenv w2) in
                match err with
                | Some _ =>
                    (fsID,
                     World.mk
                       (RequestContext.setErrorCode InvalidArguments (World.ctx w))
                       (World.store w) e)
                | None => (fsID, World.mk (World.ctx w) (World.store w) e)
                end
              else (""%string, World.mk (World.ctx w) (World.store w) (World.fsenv w2))) in
           let pplVersion :=
             PipelineVersion.mk 0 "" "" fsID
               (CreatePipelineRequest.FsName request')
               (CreatePipelineRequest.YamlPath request')
               yaml (GetMD5Hash C yaml) userName 0 0 in
           let '((pplID, pplVersionID, err), st') :=
             store_CreatePipeline storage ppl pplVersion (World.store w) in
           match err with
           | Some err =>
               ((CreatePipelineResponse.zero,
                 Some (Errorf "create pipeline failed inserting db. error:%s"
                         [ArgV err])),
                World.mk (RequestContext.setErrorCode InternalError (World.ctx w3))
                         st' (World.fsenv w3))
           | None =>
               ((CreatePipelineResponse.mk pplID pplVersionID name, None),
                World.mk (World.ctx w3) st' (World.fsenv w3))
           end
     end).
Proof.
  intros userName.
  destruct resolved_frame as [Hc1 Hs1].
  destruct validated_frame as [Hc2 Hs2].
  pose proof resolved_desc as Hd.
  unfold CreatePipeline; unfold_monad.
  apply Nat.ltb_ge in desc_ok. rewrite desc_ok.
  rewrite resolved. cbv beta iota. rewrite Hc1.
  fold userName. fold userName in validated. rewrite validated. cbv beta iota.
  destruct w2 as [c2 s2 e2]; simpl in *; subst c2 s2.
  rewrite Hd.
  split_all; reflexivity.
Qed.

End CreateSteps.

(** C5: once the workflow of a create request validated to a name, a
    definition of that name owned by the caller makes the call fail with
    [DuplicatedName]; a lookup that fails otherwise than by not-found makes
    it fail with [InternalError]; in both cases the store is left as it was,
    and only a not-found lookup lets the call succeed or write. *)
Theorem duplicate_name_check :
  forall {St E} (C : Collaborators E) (storage : PipelineStore St)
         (request request' : CreatePipelineRequest.t) (w w1 w2 : World.t St E)
         (yaml name : string),
    (String.length (CreatePipelineRequest.Desc request) <= MaxDescLength C)%nat ->
    getPipelineYaml C request w = ((request', (yaml, None)), w1) ->
    validateWorkflowForPipeline C yaml (RequestContext.UserName (World.ctx w))
      (CreatePipelineRequest.UserName request') w1
    = ((name, None), w2) ->
    let lookup :=
      store_GetPipeline storage name (RequestContext.UserName (World.ctx w))
        (World.store w) in
    let result := CreatePipeline C storage request w in
    let failed code :=
      World.mk (RequestContext.setErrorCode code (World.ctx w))
               (World.store w) (World.fsenv w2) in
    (snd lookup = None ->
     exists err,
       result = ((CreatePipelineResponse.zero, Some err), failed DuplicatedName))
    /\ (forall e,
          snd lookup = Some e -> errors_Is_ErrRecordNotFound e = false ->
          exists err,
            result = ((CreatePipelineResponse.zero, Some err), failed InternalError))
    /\ (snd (fst result) = None \/ World.store (snd result) <> World.store w ->
        exists e, snd lookup = Some e /\ errors_Is_ErrRecordNotFound e = true).
Proof.
  intros St E C storage request request' w w1 w2 yaml name Hd Hr Hv
         lookup result failed.
  subst result. rewrite (CreatePipeline_from_lookup C storage _ _ _ _ _ _ _ Hd Hr Hv).
  subst lookup failed. cbv zeta.
  destruct (store_GetPipeline storage name (RequestContext.UserName (World.ctx w))
              (World.store w)) as [found [e |]]; simpl.
  - destruct (errors_Is_ErrRecordNotFound e) eqn:He; simpl.
    + split; [discriminate |]. split; [| eauto].
      intros e' [= <-] He'. congruence.
    + split; [discriminate |]. split; [eauto |].
      intros [H | H]; [discriminate H | exfalso; apply H; reflexivity].
  - split; [eauto |]. split; [discriminate |].
    intros [H | H]; [discriminate H | exfalso; apply H; reflexivity].
Qed.

Lemma duplicate_name_check_witness :
  exists err,
    CreatePipeline Demo.collab RefStore.storage (Demo.inline "demo" "x")
      (Demo.world "alice" Demo.oneVersion [])
    = ((CreatePipelineResponse.zero, Some err),
       World.mk (RequestContext.mk "alice" DuplicatedName) Demo.oneVersion []).
Proof.
  refine (proj1 (duplicate_name_check Demo.collab RefStore.storage
                   (Demo.inline "demo" "x") (Demo.inline "demo" "x")
                   (Demo.world "alice" Demo.oneVersion [])
                   (Demo.world "alice" Demo.oneVersion [])
                   (Demo.world "alice" Demo.oneVersion [])
                   "demo" "demo" _ _ _) _).
  - simpl. lia.
  - vm_compute. reflexivity.
  - vm_compute. reflexivity.
  - vm_compute. reflexivity.
Defined.

Example other_owner_may_share_the_name :
  let r := CreatePipeline Demo.collab RefStore.storage (Demo.inline "demo" "x")
             (Demo.world "bob" Demo.oneVersion []) in
  fst r = (CreatePipelineResponse.mk "ppl-3" "4" "demo", None)
  /\ map Pipeline.UserName (RefStore.pipelines (World.store (snd r)))
     = ["alice"; "bob"].
Proof. vm_compute. split; reflexivity. Qed.

(** ** A failed store create *)

(** Resolving the source keeps the file-system name of the request. *)
Lemma resolved_FsName :
  forall {St E} (C : Collaborators E) (request request' : CreatePipelineRequest.t)
         (w w1 : World.t St E) (r : string * option error),
    getPipelineYaml C request w = ((request', r), w1) ->
    CreatePipelineRequest.FsName request' = CreatePipelineRequest.FsName request.
Proof.
  intros St E C request request' w w1 r.
  destruct request as [fsName yamlPath yamlRaw userName desc].
  unfold_controller; unfold_monad; simpl.
  split_all; intros H; inversion H; reflexivity.
Qed.

(** [CreatePipeline] reports [DuplicatedName] with an error only from its
    existence lookup: the source was resolved, the workflow validated, and
    the lookup found a definition of the validated name owned by the
    caller; nothing was written. *)
Lemma DuplicatedName_comes_from_the_lookup :
  forall {St E} (C : Collaborators E) (storage : PipelineStore St)
         (request : CreatePipelineRequest.t) (w w' : World.t St E)
         (resp : CreatePipelineResponse.t) (err : error),
    CreatePipeline C storage request w = ((resp, Some err), w') ->
    RequestContext.ErrorCode (World.ctx w') = DuplicatedName ->
    exists request' yaml w1 name w2 found,
      getPipelineYaml C request w = ((request', (yaml, None)), w1)
      /\ validateWorkflowForPipeline C yaml
           (RequestContext.UserName (World.ctx w))
           (CreatePipelineRequest.UserName request') w1
         = ((name, None), w2)
      /\ store_GetPipeline storage name (RequestContext.UserName (World.ctx w))
           (World.store w)
         = (found, None)
      /\ World.store w' = World.store w.
Proof.
  intros St E C storage request w w' resp err Hrun Hcode.
  destruct (Nat.ltb (MaxDescLength C)
              (String.length (CreatePipelineRequest.Desc request))) eqn:Hd.
  - revert Hrun. unfold CreatePipeline; unfold_monad. rewrite Hd.
    intros H. inversion H; subst. discriminate Hcode.
  - apply Nat.ltb_ge in Hd.
    destruct (getPipelineYaml C request w) as [[request' [yaml [e |]]] w1] eqn:Hr.
    + revert Hrun. unfold CreatePipeline; unfold_monad.
      apply Nat.ltb_ge in Hd. rewrite Hd, Hr.
      intros H. inversion H; subst. discriminate Hcode.
    + pose proof (resolved_frame C _ _ _ _ _ Hr) as [Hc1 Hs1].
      destruct (validateWorkflowForPipeline C yaml
                  (RequestContext.UserName (World.ctx w))
                  (CreatePipelineRequest.UserName request') w1)
        as [[name [e |]] w2] eqn:Hv.
      * revert Hrun. unfold CreatePipeline; unfold_monad.
        apply Nat.ltb_ge in Hd. rewrite Hd, Hr. cbv beta iota.
        rewrite Hc1, Hv.
        intros H. inversion H; subst. discriminate Hcode.
      * rewrite (CreatePipeline_from_lookup C storage _ _ _ _ _ _ _ Hd Hr Hv)
          in Hrun.
        cbv zeta in Hrun.
        destruct (store_GetPipeline storage name
                    (RequestContext.UserName (World.ctx w)) (World.store w))
          as [found [e |]] eqn:Hl.
        -- exfalso. revert Hrun.
           split_all; intros H; inversion H; subst; discriminate Hcode.
        -- inversion Hrun; subst. simpl.
           exists request', yaml, w1, name, w2, found. repeat split; auto.
Qed.

(** C6, as the code has it: when the store's create fails, whatever the
    error, also on the uniqueness constraint, [CreatePipeline] returns the
    store's error wrapped and the code [InternalError]; and a call that
    fails with [DuplicatedName] got it from the existence lookup before the
    create, which found the validated name, and has written nothing. *)
Theorem create_failure_is_internal :
  forall {St E} (C : Collaborators E) (storage : PipelineStore St)
         (request : CreatePipelineRequest.t) (w : World.t St E),
    let userName := RequestContext.UserName (World.ctx w) in
    let result := CreatePipeline C storage request w in
    (forall request' w1 w2 yaml name found missing,
       (String.length (CreatePipelineRequest.Desc request) <= MaxDescLength C)%nat ->
       getPipelineYaml C request w = ((request', (yaml, None)), w1) ->
       validateWorkflowForPipeline C yaml userName
         (CreatePipelineRequest.UserName request') w1
       = ((name, None), w2) ->
       store_GetPipeline storage name userName (World.store w)
       = (found, Some missing) ->
       errors_Is_ErrRecordNotFound missing = true ->
       exists fsID,
         (CreatePipelineRequest.FsName request = "" -> fsID = "")
         /\ forall pplID pplVersionID e st',
              store_CreatePipeline storage
                (Pipeline.mk 0 "" name (CreatePipelineRequest.Desc request)
                   userName 0 0)
                (PipelineVersion.mk 0 "" "" fsID
                   (CreatePipelineRequest.FsName request)
                   (CreatePipelineRequest.YamlPath request')
                   yaml (GetMD5Hash C yaml) userName 0 0)
                (World.store w)
              = ((pplID, pplVersionID, Some e), st') ->
              fst result
              = (CreatePipelineResponse.zero,
                 Some (Errorf "create pipeline failed inserting db. error:%s"
                         [ArgV e]))
              /\ RequestContext.ErrorCode (World.ctx (snd result)) = InternalError
              /\ World.store (snd result) = st')
    /\
    (forall resp err w',
       result = ((resp, Some err), w') ->
       RequestContext.ErrorCode (World.ctx w') = DuplicatedName ->
       exists request' yaml w1 name w2 found,
         getPipelineYaml C request w = ((request', (yaml, None)), w1)
         /\ validateWorkflowForPipeline C yaml userName
              (CreatePipelineRequest.UserName request') w1
            = ((name, None), w2)
         /\ store_GetPipeline storage name userName (World.store w) = (found, None)
         /\ World.store w' = World.store w).
Proof.
  intros St E C storage request w userName result. subst result. split.
  - intros request' w1 w2 yaml name found missing Hd Hr Hv Hl Hm.
    rewrite (CreatePipeline_from_lookup C storage _ _ _ _ _ _ _ Hd Hr Hv).
    cbv zeta. fold userName. rewrite Hl. cbv beta iota.
    rewrite Hm. simpl negb. cbv iota.
    rewrite (resolved_FsName C _ _ _ _ _ Hr).
    destruct (String.eqb (CreatePipelineRequest.FsName request) "") eqn:Hf;
      simpl negb; cbv iota.
    + exists ""%string. split; [reflexivity |].
      intros pplID pplVersionID e st' Hc. rewrite Hc. simpl. repeat split.
    + apply String.eqb_neq in Hf.
      destruct (CheckFsAndGetID C userName (CreatePipelineRequest.UserName request')
                  (CreatePipelineRequest.FsName request) (World.fsenv w2))
        as [[fsID [e0 |]] fs3]; exists fsID;
        (split; [intros H; contradiction |]);
        intros pplID pplVersionID e st' Hc; rewrite Hc; simpl; repeat split.
  - intros resp err w' Hrun Hcode.
    exact (DuplicatedName_comes_from_the_lookup C storage request w w' resp err
             Hrun Hcode).
Qed.

Lemma create_failure_is_internal_witness :
  let w := World.mk (RequestContext.mk "alice" NoCode) RacingStore.demoInFlight [] in
  let result :=
    CreatePipeline Demo.collab RacingStore.storage (Demo.inline "demo" "x") w in
  let again := Demo.world "alice" Demo.oneVersion [] in
  (exists fsID,
     ("" = "" -> fsID = "")
     /\ forall pplID pplVersionID e st',
          store_CreatePipeline RacingStore.storage
            (Pipeline.mk 0 "" "demo" "x" "alice" 0 0)
            (PipelineVersion.mk 0 "" "" fsID "" "" "demo" "demo" "alice" 0 0)
            RacingStore.demoInFlight
          = ((pplID, pplVersionID, Some e), st') ->
          fst result
          = (CreatePipelineResponse.zero,
             Some (Errorf "create pipeline failed inserting db. error:%s"
                     [ArgV e]))
          /\ RequestContext.ErrorCode (World.ctx (snd result)) = InternalError
          /\ World.store (snd result) = st')
  /\ (exists request' yaml w1 name w2 found,
        getPipelineYaml Demo.collab (Demo.inline "demo" "x") again
        = ((request', (yaml, None)), w1)
        /\ validateWorkflowForPipeline Demo.collab yaml "alice"
             (CreatePipelineRequest.UserName request') w1
           = ((name, None), w2)
        /\ RefStore.GetPipeline name "alice" Demo.oneVersion = (found, None)
        /\ World.store
             (snd (CreatePipeline Demo.collab RefStore.storage
                     (Demo.inline "demo" "x") again))
           = Demo.oneVersion).
Proof.
  intros w result again. split.
  - apply (proj1 (create_failure_is_internal Demo.collab RacingStore.storage
                    (Demo.inline "demo" "x") w)
             (Demo.inline "demo" "x") w w "demo" "demo" Pipeline.zero
             ErrRecordNotFound).
    + simpl. lia.
    + vm_compute. reflexivity.
    + vm_compute. reflexivity.
    + vm_compute. reflexivity.
    + reflexivity.
  - apply (proj2 (create_failure_is_internal Demo.collab RefStore.storage
                    (Demo.inline "demo" "x") again)
             (fst (fst (CreatePipeline Demo.collab RefStore.storage
                          (Demo.inline "demo" "x") again)))
             (Errorf
                "CreatePipeline failed: user[%s] already has pipeline[%s], cannot create again, use update instead!"
                [ArgS "alice"; ArgS "demo"])).
    + vm_compute. reflexivity.
    + vm_compute. reflexivity.
Defined.

(** C6, as the claim has it, fails: the request that loses the race gets
    [InternalError], not [DuplicatedName]. *)
Lemma create_race_counterexample :
  let w := World.mk (RequestContext.mk "alice" NoCode) RacingStore.demoInFlight [] in
  let result :=
    CreatePipeline Demo.collab RacingStore.storage (Demo.inline "demo" "x") w in
  snd (store_GetPipeline RacingStore.storage "demo" "alice" RacingStore.demoInFlight)
  = Some ErrRecordNotFound
  /\ snd (fst result)
     = Some (Errorf "create pipeline failed inserting db. error:%s"
               [ArgV ErrDuplicatedKey])
  /\ RequestContext.ErrorCode (World.ctx (snd result)) = InternalError
  /\ RequestContext.ErrorCode (World.ctx (snd result)) <> DuplicatedName.
Proof.
  vm_compute. repeat split; discriminate.
Qed.

(** ** The schedule guard of the deletes *)

(** C3, as the code has it: for a caller that passes the permission check,
    a delete is refused with [ActionNotAllowed], and nothing is written,
    when the schedule query reports a schedule in a non-final status that
    refers to the definition (for a version: to the definition and the
    version); when the query reports none (for a version: and the version
    count is not one) the store's delete is carried out. *)
Theorem delete_guard :
  forall {St E} (C : Collaborators E) (storage : PipelineStore St)
         (pipelineID pipelineVersionID : string) (w : World.t St E)
         (ppl : Pipeline.t) (pplVersion : PipelineVersion.t) (count : Z)
         (schedules versionSchedules : list Schedule.t),
    let userName := RequestContext.UserName (World.ctx w) in
    let refused :=
      World.mk (RequestContext.setErrorCode ActionNotAllowed (World.ctx w))
               (World.store w) (World.fsenv w) in
    (CheckPipelinePermission C storage userName pipelineID (World.store w)
     = (true, ppl, None) ->
     models_ListSchedule storage 0 0 [pipelineID] [] [] [] []
       (ScheduleNotFinalStatusList C) (World.store w)
     = (schedules, None) ->
     (schedules <> [] ->
      exists err, DeletePipeline C storage pipelineID w = (Some err, refused))
     /\ (schedules = [] ->
         World.store (snd (DeletePipeline C storage pipelineID w))
         = snd (store_DeletePipeline storage pipelineID (World.store w))
         /\ (fst (store_DeletePipeline storage pipelineID (World.store w)) = None ->
             fst (DeletePipeline C storage pipelineID w) = None)))
    /\
    (CheckPipelineVersionPermission C storage userName pipelineID
       pipelineVersionID (World.store w)
     = (true, ppl, pplVersion, None) ->
     store_CountPipelineVersion storage pipelineID (World.store w) = (count, None) ->
     models_ListSchedule storage 0 0 [pipelineID] [pipelineVersionID] [] [] []
       (ScheduleNotFinalStatusList C) (World.store w)
     = (versionSchedules, None) ->
     (versionSchedules <> [] ->
      exists err,
        DeletePipelineVersion C storage pipelineID pipelineVersionID w
        = (Some err, refused))
     /\ (versionSchedules = [] -> count <> 1 ->
         World.store
           (snd (DeletePipelineVersion C storage pipelineID pipelineVersionID w))
         = snd (store_DeletePipelineVersion storage pipelineID pipelineVersionID
                  (World.store w))
         /\ (fst (store_DeletePipelineVersion storage pipelineID pipelineVersionID
                    (World.store w)) = None ->
             fst (DeletePipelineVersion C storage pipelineID pipelineVersionID w)
             = None))).
Proof.
  intros St E C storage pipelineID pipelineVersionID w ppl pplVersion count
         schedules versionSchedules userName refused.
  subst userName refused. split.
  - intros Hperm Hlist.
    unfold DeletePipeline; unfold_monad; simpl.
    rewrite Hperm; simpl. rewrite Hlist; simpl.
    split.
    + intros Hne. destruct schedules; [contradiction | simpl; eauto].
    + intros ->. simpl.
      destruct (store_DeletePipeline storage pipelineID (World.store w))
        as [[e |] st']; simpl; split; auto; discriminate.
  - intros Hperm Hcount Hlist.
    unfold DeletePipelineVersion; unfold_monad; simpl.
    rewrite Hperm; simpl. rewrite Hcount; simpl.
    split.
    + intros Hne. destruct (count =? 1); simpl; [eauto |].
      rewrite Hlist; simpl.
      destruct versionSchedules; [contradiction | simpl; eauto].
    + intros -> Hc. apply Z.eqb_neq in Hc. rewrite Hc; simpl.
      rewrite Hlist; simpl.
      destruct (store_DeletePipelineVersion storage pipelineID pipelineVersionID
                  (World.store w)) as [[e |] st']; simpl; split; auto; discriminate.
Qed.

Lemma delete_guard_witness :
  let w := Demo.world "alice" DemoSchedules.running [] in
  let refused :=
    World.mk (RequestContext.mk "alice" ActionNotAllowed) DemoSchedules.running [] in
  (exists err,
     DeletePipeline Demo.collab RefStore.storage "ppl-1" w = (Some err, refused))
  /\ (exists err,
        DeletePipelineVersion Demo.collab RefStore.storage "ppl-1" "2" w
        = (Some err, refused)).
Proof.
  intros w refused.
  pose proof (delete_guard Demo.collab RefStore.storage "ppl-1" "2" w
                (hd Pipeline.zero (RefStore.pipelines DemoSchedules.running))
                (hd PipelineVersion.zero (RefStore.versions DemoSchedules.running))
                2
                [Demo.schedule "ppl-1" "2" "running"]
                [Demo.schedule "ppl-1" "2" "running"]) as [Hp Hv].
  split.
  - apply Hp; [vm_compute; reflexivity | vm_compute; reflexivity | discriminate].
  - apply Hv; [vm_compute; reflexivity | vm_compute; reflexivity
              | vm_compute; reflexivity | discriminate].
Defined.

Example delete_succeeds_once_the_schedule_ended :
  let w := Demo.world "alice" DemoSchedules.ended [] in
  let r := DeletePipelineVersion Demo.collab RefStore.storage "ppl-1" "2" w in
  fst r = None
  /\ map PipelineVersion.ID (RefStore.versions (World.store (snd r))) = ["3"]
  /\ fst (DeletePipeline Demo.collab RefStore.storage "ppl-1" w) = None
  /\ RefStore.pipelines
       (World.store (snd (DeletePipeline Demo.collab RefStore.storage "ppl-1" w)))
     = [].
Proof. vm_compute. repeat split. Qed.

(** C3, as the claim has it, fails for a caller that does not pass the
    permission check: a running schedule refers to the definition, and the
    delete is refused with [AccessDenied]. *)
Lemma delete_guard_counterexample :
  let w := Demo.world "bob" DemoSchedules.running [] in
  let result := DeletePipeline Demo.collab RefStore.storage "ppl-1" w in
  fst (RefStore.ListSchedule 0 0 ["ppl-1"] [] [] [] [] ["running"]
         DemoSchedules.running)
  = [Demo.schedule "ppl-1" "2" "running"]
  /\ fst result <> None
  /\ World.store (snd result) = DemoSchedules.running
  /\ RequestContext.ErrorCode (World.ctx (snd result)) = AccessDenied
  /\ RequestContext.ErrorCode (World.ctx (snd result)) <> ActionNotAllowed.
Proof.
  vm_compute. repeat split; discriminate.
Qed.

(** ** A lookup that finds nothing *)

Lemma lookup_not_found_codes :
  forall {St E} (C : Collaborators E) (storage : PipelineStore St)
         (pipelineID pipelineVersionID marker : string) (maxKeys : Z)
         (fsFilter : list string) (w : World.t St E) (p : Pipeline.t),
    store_GetPipelineByID storage pipelineID (World.store w)
    = (p, Some ErrRecordNotFound) ->
    let code {A} (r : A * World.t St E) :=
      RequestContext.ErrorCode (World.ctx (snd r)) in
    code (GetPipeline C storage pipelineID marker maxKeys fsFilter w)
    = InvalidArguments
    /\ code (GetPipelineVersion C storage pipelineID pipelineVersionID w)
       = InternalError
    /\ code (DeletePipeline C storage pipelineID w) = InternalError
    /\ code (DeletePipelineVersion C storage pipelineID pipelineVersionID w)
       = InternalError.
Proof.
  intros St E C storage pipelineID pipelineVersionID marker maxKeys fsFilter w p
         Hl code.
  subst code. unfold_controller; unfold_monad; simpl.
  rewrite Hl; simpl. repeat split.
Qed.

(** C7 fails on the code: the definition [ppl-404] is not in the store, the
    store answers not-found, and [GetPipelineVersion], [DeletePipeline] and
    [DeletePipelineVersion] report [InternalError], where [GetPipeline] and
    [UpdatePipeline] report [InvalidArguments]; so does a version that is
    not in the store. *)
Theorem not_found_reported_as_internal_error :
  let w := Demo.world "root" Demo.oneVersion [] in
  let code {A} (r : A * World.t RefStore.t Demo.Fs) :=
    RequestContext.ErrorCode (World.ctx (snd r)) in
  RefStore.GetPipelineByID "ppl-404" Demo.oneVersion
  = (Pipeline.zero, Some ErrRecordNotFound)
  /\ RefStore.GetPipelineVersion "ppl-1" "99" Demo.oneVersion
     = (PipelineVersion.zero, Some ErrRecordNotFound)
  /\ code (GetPipeline Demo.collab RefStore.storage "ppl-404" "" 10 [] w)
     = InvalidArguments
  /\ code (UpdatePipeline Demo.collab RefStore.storage (Demo.inline "demo" "y")
             "ppl-404" w)
     = InvalidArguments
  /\ code (GetPipelineVersion Demo.collab RefStore.storage "ppl-404" "2" w)
     = InternalError
  /\ code (DeletePipeline Demo.collab RefStore.storage "ppl-404" w)
     = InternalError
  /\ code (DeletePipelineVersion Demo.collab RefStore.storage "ppl-404" "2" w)
     = InternalError
  /\ code (GetPipelineVersion Demo.collab RefStore.storage "ppl-1" "99" w)
     = InternalError
  /\ code (DeletePipelineVersion Demo.collab RefStore.storage "ppl-1" "99" w)
     = InternalError.
Proof.
  vm_compute. repeat split.
Qed.

(** ** Resolving the file system of a request *)

(** When the resolution done while the source is read fails, create fails
    with [InvalidArguments] and writes nothing. *)
Lemma first_resolution_failure_stops :
  forall {St E} (C : Collaborators E) (storage : PipelineStore St)
         (request : CreatePipelineRequest.t) (w : World.t St E)
         (fsID : string) (e : error) (fs' : E),
    (String.length (CreatePipelineRequest.Desc request) <= MaxDescLength C)%nat ->
    CreatePipelineRequest.YamlRaw request = "" ->
    CreatePipelineRequest.FsName request <> "" ->
    CheckFsAndGetID C (RequestContext.UserName (World.ctx w))
      (CreatePipelineRequest.UserName request)
      (CreatePipelineRequest.FsName request) (World.fsenv w)
    = ((fsID, Some e), fs') ->
    CreatePipeline C storage request w
    = ((CreatePipelineResponse.zero,
        Some (Errorf "create pipeline failed. err:%v" [ArgV e])),
       World.mk (RequestContext.setErrorCode InvalidArguments (World.ctx w))
                (World.store w) fs').
Proof.
  intros St E C storage request w fsID e fs' Hd Hraw Hfs Hres.
  destruct request as [fsName yamlPath yamlRaw userName desc]; simpl in *.
  subst yamlRaw. apply eqb_empty_false in Hfs. apply Nat.ltb_ge in Hd.
  unfold_controller; unfold_monad; simpl.
  rewrite Hd; simpl.
  destruct (String.eqb yamlPath ""); simpl; rewrite Hfs; simpl;
    rewrite Hres; simpl; reflexivity.
Qed.

(** C9 fails on the code: the second resolution of the file-system name
    fails, the code is set and the error is dropped; create and update
    return no error and write a version row whose file-system id is
    empty. *)
Theorem failed_resolution_is_persisted :
  let created :=
    CreatePipeline Demo.collab RefStore.storage DemoFs.fromFs
      (Demo.world "alice" RefStore.empty DemoFs.vanishing) in
  let updated :=
    UpdatePipeline Demo.collab RefStore.storage DemoFs.fromFs "ppl-1"
      (Demo.world "alice" Demo.oneVersion DemoFs.vanishing) in
  let rows (st : RefStore.t) :=
    map (fun v => (PipelineVersion.ID v, PipelineVersion.FsName v,
                   PipelineVersion.FsID v))
        (RefStore.versions st) in
  fst created = (CreatePipelineResponse.mk "ppl-1" "2" "demo", None)
  /\ RequestContext.ErrorCode (World.ctx (snd created)) = InvalidArguments
  /\ rows (World.store (snd created)) = [("2", "fs1", "")]
  /\ fst updated = (UpdatePipelineResponse.mk "ppl-1" "3", None)
  /\ RequestContext.ErrorCode (World.ctx (snd updated)) = InternalError
  /\ rows (World.store (snd updated)) = [("2", "", ""); ("3", "fs1", "")].
Proof.
  vm_compute. repeat split.
Qed.

(** ** The cursor marker *)

Lemma decimal_parses : forall k : Z,
  NilZero.int_of_string (decimal k) = Some (Z.to_int k).
Proof.
  intros k. unfold decimal. apply NilZero.isi.
  - destruct k; simpl; intros H; try discriminate H;
      injection H as H; apply (DecimalPos.Unsigned.to_uint_nonnil _ H).
  - destruct k; simpl; intros H; try discriminate H;
      injection H as H; apply (DecimalPos.Unsigned.to_uint_nonnil _ H).
Qed.

Lemma DecryptPk_EncryptPk : forall k : Z,
  CursorCodec.isInt64 k = true ->
  CursorCodec.DecryptPk (fst (CursorCodec.EncryptPk k)) = (k, None).
Proof.
  intros k Hk. unfold CursorCodec.DecryptPk, CursorCodec.EncryptPk. simpl.
  rewrite decimal_parses, DecimalZ.of_to, Hk, String.eqb_refl. reflexivity.
Qed.

Lemma DecryptPk_accepts_encodings_only : forall (m : string) (k : Z),
  CursorCodec.DecryptPk m = (k, None) ->
  CursorCodec.isInt64 k = true /\ fst (CursorCodec.EncryptPk k) = m.
Proof.
  intros m k. unfold CursorCodec.DecryptPk.
  destruct (NilZero.int_of_string m) as [d |]; [| discriminate].
  cbv zeta.
  destruct (CursorCodec.isInt64 (Z.of_int d)
            && String.eqb (fst (CursorCodec.EncryptPk (Z.of_int d))) m) eqn:Hc;
    [| discriminate].
  intros [= <-]. apply andb_prop in Hc. destruct Hc as [Hr He].
  apply String.eqb_eq in He. split; assumption.
Qed.

(** [ListPipeline] asks the store for the page after the cursor of its
    marker: key zero for the empty marker, the decoded key otherwise. *)
Lemma ListPipeline_at_cursor :
  forall {St E} (C : Collaborators E) (storage : PipelineStore St)
         (marker : string) (maxKeys : Z) (userFilter nameFilter : list string)
         (w : World.t St E) (pk : Z),
    let userName := RequestContext.UserName (World.ctx w) in
    let filter := if IsRootUser C userName then userFilter else [userName] in
    let page :=
      store_ListPipeline storage pk maxKeys filter nameFilter (World.store w) in
    let result := ListPipeline C storage marker maxKeys userFilter nameFilter w in
    marker = "" /\ pk = 0 \/ marker <> "" /\ DecryptPk C marker = (pk, None) ->
    IsRootUser C userName = true \/ userFilter = [] ->
    (forall e,
       snd page = Some e ->
       result
       = ((ListPipelineResponse.zero, Some e),
          World.mk (RequestContext.setErrorCode InternalError (World.ctx w))
                   (World.store w) (World.fsenv w)))
    /\ (page = ([], None) ->
        result
        = ((ListPipelineResponse.mk (MarkerInfo.mk "" false maxKeys) (Some []),
            None),
           w))
    /\ (forall resp w',
          result = ((resp, None), w') ->
          snd page = None
          /\ ListPipelineResponse.PipelineList resp
             = Some (map (updateFromPipelineModel C) (fst page))).
Proof.
  intros St E C storage marker maxKeys userFilter nameFilter w pk
         userName filter page result Hcur Hauth.
  assert (Hdec :
            (if negb (String.eqb marker "") then DecryptPk C marker else (0, None))
            = (pk, None)).
  { destruct Hcur as [[-> ->] | [Hm Hd]]; [reflexivity |].
    apply eqb_empty_false in Hm. rewrite Hm. exact Hd. }
  subst result page filter userName. destruct w as [ctx st fs].
  unfold ListPipeline; unfold_monad. rewrite Hdec. simpl in *.
  destruct (IsRootUser C (RequestContext.UserName ctx)) eqn:Hroot; simpl.
  - destruct (store_ListPipeline storage pk maxKeys userFilter nameFilter st)
      as [rows [e |]]; close_cursor_page.
  - destruct Hauth as [H | ->]; [discriminate H |]. simpl.
    destruct (store_ListPipeline storage pk maxKeys
                [RequestContext.UserName ctx] nameFilter st)
      as [rows [e |]]; close_cursor_page.
Qed.

(** [GetPipeline], once the caller is let through, asks the store for the
    page of versions after the cursor of its marker. *)
Lemma GetPipeline_at_cursor :
  forall {St E} (C : Collaborators E) (storage : PipelineStore St)
         (pipelineID marker : string) (maxKeys : Z) (fsFilter : list string)
         (w : World.t St E) (pk : Z) (ppl : Pipeline.t),
    let userName := RequestContext.UserName (World.ctx w) in
    let page :=
      store_ListPipelineVersion storage pipelineID pk maxKeys fsFilter
        (World.store w) in
    let result := GetPipeline C storage pipelineID marker maxKeys fsFilter w in
    marker = "" /\ pk = 0 \/ marker <> "" /\ DecryptPk C marker = (pk, None) ->
    store_GetPipelineByID storage pipelineID (World.store w) = (ppl, None) ->
    IsRootUser C userName || String.eqb userName (Pipeline.UserName ppl) = true ->
    (forall e,
       snd page = Some e ->
       result
       = ((GetPipelineResponse.zero, Some e),
          World.mk (RequestContext.setErrorCode InternalError (World.ctx w))
                   (World.store w) (World.fsenv w)))
    /\ (page = ([], None) ->
        result
        = ((GetPipelineResponse.mk (updateFromPipelineModel C ppl)
              (PipelineVersions.mk (MarkerInfo.mk "" false maxKeys) (Some [])),
            None),
           w))
    /\ (forall resp w',
          result = ((resp, None), w') ->
          snd page = None
          /\ PipelineVersions.PipelineVersionList
               (GetPipelineResponse.PipelineVersions resp)
             = Some (map (updateFromPipelineVersionModel C) (fst page))).
Proof.
  intros St E C storage pipelineID marker maxKeys fsFilter w pk ppl
         userName page result Hcur Hl Hauth.
  assert (Hdec :
            (if negb (String.eqb marker "") then DecryptPk C marker else (0, None))
            = (pk, None)).
  { destruct Hcur as [[-> ->] | [Hm Hd]]; [reflexivity |].
    apply eqb_empty_false in Hm. rewrite Hm. exact Hd. }
  assert (Hdenied :
            negb (IsRootUser C userName)
            && negb (String.eqb userName (Pipeline.UserName ppl)) = false).
  { apply orb_prop in Hauth. destruct Hauth as [-> | ->]; simpl;
      [reflexivity | apply andb_false_r]. }
  subst result page userName. destruct w as [ctx st fs].
  unfold GetPipeline; unfold_monad. simpl in *.
  rewrite Hl. simpl. rewrite Hdenied, Hdec. simpl.
  destruct (store_ListPipelineVersion storage pipelineID pk maxKeys fsFilter st)
    as [rows [e |]]; close_cursor_page.
Qed.

(** C8: on the marker codec, decoding the encoding of a signed 64-bit row
    key gives the key back, and a marker that is the encoding of no such key
    is rejected.  In the listings, a marker the decoder rejects gives
    [InvalidMarker]; the empty marker is not given to the decoder; and the
    store is asked for the page after the cursor of the marker, which is row
    key zero for the empty marker and the decoded key otherwise: a failure
    of that page query is the failure of the call, an empty page there is an
    empty successful listing, and a successful listing returns the briefs of
    that page. *)
Theorem marker_round_trip :
  (forall k : Z,
     CursorCodec.minInt64 <= k <= CursorCodec.maxInt64 ->
     snd (CursorCodec.EncryptPk k) = None
     /\ CursorCodec.DecryptPk (fst (CursorCodec.EncryptPk k)) = (k, None))
  /\ (forall m : string,
        (forall k, CursorCodec.minInt64 <= k <= CursorCodec.maxInt64 ->
                   fst (CursorCodec.EncryptPk k) <> m) ->
        snd (CursorCodec.DecryptPk m) <> None)
  /\ (forall {St E} (C : Collaborators E) (storage : PipelineStore St)
             (pipelineID marker : string) (maxKeys : Z)
             (userFilter nameFilter fsFilter : list string) (w : World.t St E),
        let userName := RequestContext.UserName (World.ctx w) in
        let failed code :=
          World.mk (RequestContext.setErrorCode code (World.ctx w))
                   (World.store w) (World.fsenv w) in
        let listing := ListPipeline C storage marker maxKeys userFilter nameFilter w in
        let getting := GetPipeline C storage pipelineID marker maxKeys fsFilter w in
        let permitted ppl :=
          store_GetPipelineByID storage pipelineID (World.store w) = (ppl, None)
          /\ IsRootUser C userName
             || String.eqb userName (Pipeline.UserName ppl) = true in
        (marker <> "" -> snd (DecryptPk C marker) <> None ->
         (exists err,
            listing = ((ListPipelineResponse.zero, Some err), failed InvalidMarker))
         /\ (forall ppl,
               permitted ppl ->
               exists err,
                 getting
                 = ((GetPipelineResponse.zero, Some err), failed InvalidMarker)))
        /\ (forall decode,
              ListPipeline (withDecryptPk decode C) storage "" maxKeys
                userFilter nameFilter w
              = ListPipeline C storage "" maxKeys userFilter nameFilter w
              /\ GetPipeline (withDecryptPk decode C) storage pipelineID ""
                   maxKeys fsFilter w
                 = GetPipeline C storage pipelineID "" maxKeys fsFilter w)
        /\ (marker <> "" -> DecryptPk C marker = (0, None) ->
            ListPipeline C storage "" maxKeys userFilter nameFilter w = listing
            /\ GetPipeline C storage pipelineID "" maxKeys fsFilter w = getting)
        /\ (forall pk,
              marker = "" /\ pk = 0
              \/ marker <> "" /\ DecryptPk C marker = (pk, None) ->
              (IsRootUser C userName = true \/ userFilter = [] ->
               let page :=
                 store_ListPipeline storage pk maxKeys
                   (if IsRootUser C userName then userFilter else [userName])
                   nameFilter (World.store w) in
               (forall e,
                  snd page = Some e ->
                  listing = ((ListPipelineResponse.zero, Some e),
                             failed InternalError))
               /\ (page = ([], None) ->
                   listing
                   = ((ListPipelineResponse.mk (MarkerInfo.mk "" false maxKeys)
                         (Some []),
                       None),
                      w))
               /\ (forall resp w',
                     listing = ((resp, None), w') ->
                     snd page = None
                     /\ ListPipelineResponse.PipelineList resp
                        = Some (map (updateFromPipelineModel C) (fst page))))
              /\ (forall ppl,
                    permitted ppl ->
                    let page :=
                      store_ListPipelineVersion storage pipelineID pk maxKeys
                        fsFilter (World.store w) in
                    (forall e,
                       snd page = Some e ->
                       getting = ((GetPipelineResponse.zero, Some e),
                                  failed InternalError))
                    /\ (page = ([], None) ->
                        getting
                        = ((GetPipelineResponse.mk (updateFromPipelineModel C ppl)
                              (PipelineVersions.mk
                                 (MarkerInfo.mk "" false maxKeys) (Some [])),
                            None),
                           w))
                    /\ (forall resp w',
                          getting = ((resp, None), w') ->
                          snd page = None
                          /\ PipelineVersions.PipelineVersionList
                               (GetPipelineResponse.PipelineVersions resp)
                             = Some (map (updateFromPipelineVersionModel C)
                                       (fst page)))))).
Proof.
  split; [| split].
  - intros k Hk. split; [reflexivity |].
    apply DecryptPk_EncryptPk. unfold CursorCodec.isInt64.
    apply andb_true_intro. split; apply Z.leb_le; lia.
  - intros m Hm Hd.
    destruct (CursorCodec.DecryptPk m) as [k e] eqn:Hk. simpl in Hd. subst e.
    apply DecryptPk_accepts_encodings_only in Hk. destruct Hk as [Hr He].
    apply (Hm k); [| exact He].
    unfold CursorCodec.isInt64 in Hr. apply andb_prop in Hr.
    destruct Hr as [Hlo Hhi]. apply Z.leb_le in Hlo, Hhi. lia.
  - intros St E C storage pipelineID marker maxKeys userFilter nameFilter
           fsFilter w userName failed listing getting permitted.
    subst userName failed listing getting permitted.
    split; [| split; [| split]].
    + intros Hm Hd. apply eqb_empty_false in Hm.
      destruct (DecryptPk C marker) as [k [e |]] eqn:Hk;
        [clear Hd | exfalso; apply Hd; reflexivity].
      split.
      * unfold ListPipeline; unfold_monad. rewrite Hm, Hk. simpl. eauto.
      * intros ppl [Hl Hauth].
        unfold GetPipeline; unfold_monad. rewrite Hl. simpl.
        apply orb_prop in Hauth.
        assert (Hdenied :
                  negb (IsRootUser C (RequestContext.UserName (World.ctx w)))
                  && negb (String.eqb (RequestContext.UserName (World.ctx w))
                             (Pipeline.UserName ppl)) = false).
        { destruct Hauth as [-> | ->]; simpl;
            [reflexivity | apply andb_false_r]. }
        rewrite Hdenied, Hm, Hk. simpl. eauto.
    + intros decode. split; reflexivity.
    + intros Hm Hd. apply eqb_empty_false in Hm.
      unfold ListPipeline, GetPipeline; unfold_monad.
      rewrite Hm, Hd. simpl. split; reflexivity.
    + intros pk Hcur. split.
      * intros Hauth.
        exact (ListPipeline_at_cursor C storage marker maxKeys userFilter
                 nameFilter w pk Hcur Hauth).
      * intros ppl [Hl Hauth].
        exact (GetPipeline_at_cursor C storage pipelineID marker maxKeys fsFilter
                 w pk ppl Hcur Hl Hauth).
Qed.

Example marker_examples :
  CursorCodec.EncryptPk 42 = ("42", None)
  /\ CursorCodec.EncryptPk (-7) = ("-7", None)
  /\ fst (CursorCodec.DecryptPk "42") = 42
  /\ snd (CursorCodec.DecryptPk "042") <> None
  /\ snd (CursorCodec.DecryptPk "4x") <> None
  /\ snd (CursorCodec.DecryptPk "") <> None
  /\ snd (CursorCodec.DecryptPk "9223372036854775808") <> None
  /\ CursorCodec.DecryptPk "-9223372036854775808" = (- 2 ^ 63, None).
Proof. vm_compute. repeat split; discriminate. Qed.

Lemma marker_round_trip_witness :
  CursorCodec.DecryptPk (fst (CursorCodec.EncryptPk 42)) = (42, None)
  /\ snd (CursorCodec.DecryptPk "042") <> None
  /\ (exists err,
        ListPipeline Demo.collab RefStore.storage "042" 10 [] []
          (Demo.world "alice" Demo.oneVersion [])
        = ((ListPipelineResponse.zero, Some err),
           World.mk (RequestContext.mk "alice" InvalidMarker) Demo.oneVersion []))
  /\ (let page := RefStore.ListPipeline 0 1 ["alice"] [] DemoListing.twoPipelines in
      snd page = None
      /\ ListPipelineResponse.PipelineList (fst (fst DemoListing.firstPage))
         = Some (map (updateFromPipelineModel Demo.collab) (fst page)))
  /\ (let page := RefStore.ListPipeline 1 5 ["alice"] [] DemoListing.twoPipelines in
      snd page = None
      /\ ListPipelineResponse.PipelineList (fst (fst DemoListing.lastPage))
         = Some (map (updateFromPipelineModel Demo.collab) (fst page))).
Proof.
  destruct marker_round_trip as (Hround & Hforeign & Hserve).
  split; [| split; [| split; [| split]]].
  - apply (Hround 42). vm_compute. split; discriminate.
  - apply (Hforeign "042"%string). intros k Hk He.
    pose proof (proj2 (Hround k Hk)) as Hback.
    rewrite He in Hback. vm_compute in Hback. discriminate Hback.
  - apply (proj1 (Hserve _ _ Demo.collab RefStore.storage "" "042"%string 10 [] [] []
                    (Demo.world "alice" Demo.oneVersion []))).
    + discriminate.
    + vm_compute. discriminate.
  - refine (proj2 (proj2 (proj1 (proj2 (proj2 (proj2
             (Hserve _ _ Demo.collab RefStore.storage "" ""%string 1 [] [] []
                (Demo.world "alice" DemoListing.twoPipelines []))))
             0 (or_introl (conj eq_refl eq_refl))) (or_intror eq_refl)))
             (fst (fst DemoListing.firstPage)) (snd DemoListing.firstPage) _).
    vm_compute. reflexivity.
  - refine (proj2 (proj2 (proj1 (proj2 (proj2 (proj2
             (Hserve _ _ Demo.collab RefStore.storage "" "1"%string 5 [] [] []
                (Demo.world "alice" DemoListing.twoPipelines []))))
             1 (or_intror (conj _ _))) (or_intror eq_refl)))
             (fst (fst DemoListing.lastPage)) (snd DemoListing.lastPage) _).
    + discriminate.
    + vm_compute. reflexivity.
    + vm_compute. reflexivity.
Defined.

(** * Further properties of the controller *)

(** ** Error codes *)

(** X1: an operation that returns an error has set the error code of the
    context, to one of the codes of its kind, whatever the code was
    before. *)
Theorem error_sets_code :
  forall {St E} (C : Collaborators E) (storage : PipelineStore St)
         (op : Operation) (w w' : World.t St E) (resp : Response) (err : error),
    serve C storage op w = ((resp, Some err), w') ->
    In (RequestContext.ErrorCode (World.ctx w')) (errorCodes op).
Proof.
  intros St E C storage op w w' resp err.
  destruct op; unfold_controller; unfold_monad; simpl;
    split_all; intros H; inversion H; subst; simpl; auto 10.
Qed.

Lemma error_sets_code_witness :
  In (RequestContext.ErrorCode
        (World.ctx (snd (serve Demo.collab RefStore.storage
                           (OpDeletePipeline "ppl-1")
                           (Demo.world "bob" Demo.oneVersion [])))))
     (errorCodes (OpDeletePipeline "ppl-1")).
Proof.
  eapply (error_sets_code Demo.collab RefStore.storage (OpDeletePipeline "ppl-1")
            (Demo.world "bob" Demo.oneVersion [])).
  vm_compute. reflexivity.
Defined.

(** ** Operations that only read *)

(** X2: listing and getting never change the store or the state of the
    file-system service, and never the caller's name; when they succeed they
    leave the whole context, error code included, as it was. *)
Theorem queries_only_read :
  forall {St E} (C : Collaborators E) (storage : PipelineStore St)
         (op : Operation) (w : World.t St E),
    isQuery op = true ->
    let result := serve C storage op w in
    World.store (snd result) = World.store w
    /\ World.fsenv (snd result) = World.fsenv w
    /\ RequestContext.UserName (World.ctx (snd result))
       = RequestContext.UserName (World.ctx w)
    /\ (snd (fst result) = None -> snd result = w).
Proof.
  intros St E C storage op w Hq result. subst result.
  destruct w as [ctx st fs].
  destruct op; try discriminate Hq; clear Hq;
    unfold_controller; unfold_monad; simpl;
    split_all; repeat split; try reflexivity; intros H; discriminate H.
Qed.

Lemma queries_only_read_witness :
  let w := Demo.world "alice" Demo.twoVersions [] in
  let result := serve Demo.collab RefStore.storage (OpGetPipeline "ppl-1" "" 1 []) w in
  World.store (snd result) = World.store w
  /\ World.fsenv (snd result) = World.fsenv w
  /\ RequestContext.UserName (World.ctx (snd result))
     = RequestContext.UserName (World.ctx w)
  /\ (snd (fst result) = None -> snd result = w).
Proof.
  intros w.
  apply (queries_only_read Demo.collab RefStore.storage
           (OpGetPipeline "ppl-1" "" 1 []) w).
  reflexivity.
Defined.

(** ** The permission checks *)

(** X3: [CheckPipelinePermission] grants access exactly when the definition
    is found and the caller is root or its owner; it then returns the row of
    the store.  When it does not grant, the row it returns is the zero
    value, and it reports an error exactly when the lookup failed. *)
Theorem pipeline_permission :
  forall {St E} (C : Collaborators E) (storage : PipelineStore St)
         (userName pipelineID : string) (st : St),
    let lookup := store_GetPipelineByID storage pipelineID st in
    let check := CheckPipelinePermission C storage userName pipelineID st in
    let hasAuth := fst (fst check) in
    let ppl := snd (fst check) in
    (hasAuth = true <->
     snd lookup = None
     /\ (IsRootUser C userName = true
         \/ userName = Pipeline.UserName (fst lookup)))
    /\ (hasAuth = true -> ppl = fst lookup)
    /\ (hasAuth = false -> ppl = Pipeline.zero)
    /\ (snd check = None <-> snd lookup = None).
Proof.
  intros St E C storage userName pipelineID st lookup check hasAuth ppl.
  subst hasAuth ppl check lookup. unfold CheckPipelinePermission.
  destruct (store_GetPipelineByID storage pipelineID st) as [row [e |]]; simpl.
  - destruct (errors_Is_ErrRecordNotFound e); simpl;
      repeat split; try discriminate; intros H; try discriminate H;
      destruct H as [H _]; discriminate H.
  - destruct (IsRootUser C userName) eqn:Hroot; simpl.
    + repeat split; auto; discriminate.
    + destruct (String.eqb userName (Pipeline.UserName row)) eqn:Hown; simpl.
      * apply String.eqb_eq in Hown. repeat split; auto; discriminate.
      * apply String.eqb_neq in Hown.
        repeat split; auto; try discriminate.
        intros [_ [H | H]]; [discriminate H | contradiction].
Qed.

(** X4: [CheckPipelineVersionPermission] grants access exactly when the
    check on the definition grants it and the version is found under that
    definition; it then returns both rows of the store.  When it does not
    grant, both rows it returns are zero values. *)
Theorem version_permission :
  forall {St E} (C : Collaborators E) (storage : PipelineStore St)
         (userName pipelineID pipelineVersionID : string) (st : St),
    let onPipeline := CheckPipelinePermission C storage userName pipelineID st in
    let lookup := store_GetPipelineVersion storage pipelineID pipelineVersionID st in
    let check :=
      CheckPipelineVersionPermission C storage userName pipelineID
        pipelineVersionID st in
    let hasAuth := fst (fst (fst check)) in
    (hasAuth = true <-> fst (fst onPipeline) = true /\ snd lookup = None)
    /\ (hasAuth = true ->
        snd (fst (fst check)) = snd (fst onPipeline)
        /\ snd (fst check) = fst lookup
        /\ snd check = None)
    /\ (hasAuth = false ->
        snd (fst (fst check)) = Pipeline.zero
        /\ snd (fst check) = PipelineVersion.zero).
Proof.
  intros St E C storage userName pipelineID pipelineVersionID st
         onPipeline lookup check hasAuth.
  subst hasAuth check lookup onPipeline.
  unfold CheckPipelineVersionPermission, CheckPipelinePermission.
  destruct (store_GetPipelineByID storage pipelineID st) as [row [e |]]; simpl.
  - destruct (errors_Is_ErrRecordNotFound e); simpl;
      repeat split; try discriminate; auto; intros [H _]; discriminate H.
  - destruct (negb (IsRootUser C userName)
              && negb (String.eqb userName (Pipeline.UserName row))); simpl.
    + repeat split; try discriminate; auto. intros [H _]. discriminate H.
    + destruct (store_GetPipelineVersion storage pipelineID pipelineVersionID st)
        as [v [e |]]; simpl.
      * destruct (errors_Is_ErrRecordNotFound e); simpl;
          repeat split; try discriminate; auto;
          intros [_ H]; discriminate H.
      * repeat split; auto; discriminate.
Qed.

(** ** A caller that is neither root nor the owner *)

(** X5: when the definition exists and the caller is neither root nor its
    owner, getting the definition, getting or deleting one of its versions
    and deleting it all fail with [AccessDenied], whatever the marker, the
    version or the schedules; nothing is written. *)
Theorem stranger_is_denied :
  forall {St E} (C : Collaborators E) (storage : PipelineStore St)
         (pipelineID pipelineVersionID marker : string) (maxKeys : Z)
         (fsFilter : list string) (w : World.t St E) (ppl : Pipeline.t),
    store_GetPipelineByID storage pipelineID (World.store w) = (ppl, None) ->
    IsRootUser C (RequestContext.UserName (World.ctx w)) = false ->
    RequestContext.UserName (World.ctx w) <> Pipeline.UserName ppl ->
    let denied :=
      World.mk (RequestContext.setErrorCode AccessDenied (World.ctx w))
               (World.store w) (World.fsenv w) in
    (exists err,
       GetPipeline C storage pipelineID marker maxKeys fsFilter w
       = ((GetPipelineResponse.zero, Some err), denied))
    /\ (exists err,
          GetPipelineVersion C storage pipelineID pipelineVersionID w
          = ((GetPipelineVersionResponse.zero, Some err), denied))
    /\ (exists err, DeletePipeline C storage pipelineID w = (Some err, denied))
    /\ (exists err,
          DeletePipelineVersion C storage pipelineID pipelineVersionID w
          = (Some err, denied)).
Proof.
  intros St E C storage pipelineID pipelineVersionID marker maxKeys fsFilter w
         ppl Hl Hroot Hown denied.
  subst denied. apply String.eqb_neq in Hown.
  unfold_controller; unfold_monad; simpl.
  rewrite Hl; simpl. rewrite Hroot, Hown; simpl.
  repeat split; eauto.
Qed.

Lemma stranger_is_denied_witness :
  let w := Demo.world "bob" Demo.twoVersions [] in
  exists err,
    DeletePipelineVersion Demo.collab RefStore.storage "ppl-1" "2" w
    = (Some err,
       World.mk (RequestContext.mk "bob" AccessDenied) Demo.twoVersions []).
Proof.
  intros w.
  refine (proj2 (proj2 (proj2
    (stranger_is_denied Demo.collab RefStore.storage "ppl-1" "2" "" 10 [] w
       (hd Pipeline.zero (RefStore.pipelines Demo.twoVersions)) _ _ _)))).
  - vm_compute. reflexivity.
  - vm_compute. reflexivity.
  - vm_compute. discriminate.
Defined.

(** ** What a successful delete went through *)

(** X6: a delete that returns no error passed the permission check, found
    no schedule in a non-final status (for a version: and a version count
    other than one), and the store's delete succeeded; the context is left as
    it was. *)
Theorem delete_passed_every_guard :
  forall {St E} (C : Collaborators E) (storage : PipelineStore St)
         (pipelineID pipelineVersionID : string) (w w' : World.t St E),
    let userName := RequestContext.UserName (World.ctx w) in
    (DeletePipeline C storage pipelineID w = (None, w') ->
     exists ppl,
       CheckPipelinePermission C storage userName pipelineID (World.store w)
       = (true, ppl, None)
       /\ models_ListSchedule storage 0 0 [pipelineID] [] [] [] []
            (ScheduleNotFinalStatusList C) (World.store w)
          = ([], None)
       /\ store_DeletePipeline storage pipelineID (World.store w)
          = (None, World.store w')
       /\ World.ctx w' = World.ctx w /\ World.fsenv w' = World.fsenv w)
    /\
    (DeletePipelineVersion C storage pipelineID pipelineVersionID w = (None, w') ->
     exists ppl pplVersion count,
       CheckPipelineVersionPermission C storage userName pipelineID
         pipelineVersionID (World.store w)
       = (true, ppl, pplVersion, None)
       /\ store_CountPipelineVersion storage pipelineID (World.store w)
          = (count, None)
       /\ count <> 1
       /\ models_ListSchedule storage 0 0 [pipelineID] [pipelineVersionID] [] [] []
            (ScheduleNotFinalStatusList C) (World.store w)
          = ([], None)
       /\ store_DeletePipelineVersion storage pipelineID pipelineVersionID
            (World.store w)
          = (None, World.store w')
       /\ World.ctx w' = World.ctx w /\ World.fsenv w' = World.fsenv w).
Proof.
  intros St E C storage pipelineID pipelineVersionID w w' userName.
  subst userName. split.
  - unfold DeletePipeline; unfold_monad; simpl.
    split_all; intros H; inversion H; subst; clear H; simpl.
    match goal with
    | Hb : negb ?b = false |- _ => destruct b; [| discriminate Hb]
    end.
    match goal with
    | Hl : (0 <? length ?l)%nat = false |- _ => destruct l; [| discriminate Hl]
    end.
    eexists. repeat split; eassumption.
  - unfold DeletePipelineVersion; unfold_monad; simpl.
    split_all; intros H; inversion H; subst; clear H; simpl.
    match goal with
    | Hb : negb ?b = false |- _ => destruct b; [| discriminate Hb]
    end.
    match goal with
    | Hl : (0 <? length ?l)%nat = false |- _ => destruct l; [| discriminate Hl]
    end.
    match goal with
    | Hc : (_ =? 1) = false |- _ => apply Z.eqb_neq in Hc
    end.
    do 3 eexists. repeat split; eassumption.
Qed.

Lemma delete_passed_every_guard_witness :
  let w := Demo.world "alice" DemoSchedules.ended [] in
  let w' := snd (DeletePipelineVersion Demo.collab RefStore.storage "ppl-1" "2" w) in
  exists ppl pplVersion count,
    CheckPipelineVersionPermission Demo.collab RefStore.storage "alice" "ppl-1"
      "2" DemoSchedules.ended
    = (true, ppl, pplVersion, None)
    /\ RefStore.CountPipelineVersion "ppl-1" DemoSchedules.ended = (count, None)
    /\ count <> 1
    /\ RefStore.ListSchedule 0 0 ["ppl-1"] ["2"] [] [] [] ["running"]
         DemoSchedules.ended
       = ([], None)
    /\ RefStore.DeletePipelineVersion "ppl-1" "2" DemoSchedules.ended
       = (None, World.store w')
    /\ World.ctx w' = World.ctx w /\ World.fsenv w' = World.fsenv w.
Proof.
  intros w w'.
  apply (proj2 (delete_passed_every_guard Demo.collab RefStore.storage
                  "ppl-1" "2" w w')).
  vm_compute. reflexivity.
Defined.

(** ** What a successful listing returns *)

(** X7: a successful [ListPipeline] returns, in the store's order, the
    briefs of the page the store gives for the decoded cursor (zero for the
    empty marker), the requested page size and the owner filter of the
    caller: the given filter for root, the caller's own name for anyone
    else.  It echoes the page size, and an empty page is an empty list
    without marker, not a missing one. *)
Theorem listing_returns_the_page :
  forall {St E} (C : Collaborators E) (storage : PipelineStore St)
         (marker : string) (maxKeys : Z) (userFilter nameFilter : list string)
         (w w' : World.t St E) (resp : ListPipelineResponse.t),
    ListPipeline C storage marker maxKeys userFilter nameFilter w
    = ((resp, None), w') ->
    let userName := RequestContext.UserName (World.ctx w) in
    let pk := if String.eqb marker "" then 0 else fst (DecryptPk C marker) in
    let filter := if IsRootUser C userName then userFilter else [userName] in
    let page :=
      store_ListPipeline storage pk maxKeys filter nameFilter (World.store w) in
    snd page = None
    /\ ListPipelineResponse.PipelineList resp
       = Some (map (updateFromPipelineModel C) (fst page))
    /\ MarkerInfo.MaxKeys (ListPipelineResponse.Marker resp) = maxKeys
    /\ (fst page = [] ->
        ListPipelineResponse.Marker resp = MarkerInfo.mk "" false maxKeys)
    /\ (IsRootUser C userName = false -> userFilter = []).
Proof.
  intros St E C storage marker maxKeys userFilter nameFilter w w' resp.
  unfold ListPipeline; unfold_monad; simpl.
  destruct (String.eqb marker "") eqn:Hm; simpl;
    split_all; intros H; inversion H; subst; clear H; simpl;
    repeat match goal with
           | Hp : ?f = (_, _) |- context [?f] => rewrite Hp; simpl
           end;
    repeat split; try reflexivity; try discriminate;
    try (intros ->; discriminate);
    try (intros _; destruct userFilter; [reflexivity | discriminate]).
Qed.

Lemma listing_returns_the_page_witness :
  let w := Demo.world "alice" DemoListing.twoPipelines [] in
  let resp := fst (fst DemoListing.lastPage) in
  let page := RefStore.ListPipeline 1 5 ["alice"] [] DemoListing.twoPipelines in
  snd page = None
  /\ ListPipelineResponse.PipelineList resp
     = Some (map (updateFromPipelineModel Demo.collab) (fst page))
  /\ MarkerInfo.MaxKeys (ListPipelineResponse.Marker resp) = 5
  /\ (fst page = [] ->
      ListPipelineResponse.Marker resp = MarkerInfo.mk "" false 5)
  /\ (IsRootUser Demo.collab "alice" = false -> @nil string = []).
Proof.
  intros w resp page.
  apply (listing_returns_the_page Demo.collab RefStore.storage "1" 5 [] [] w
           (snd DemoListing.lastPage) resp).
  vm_compute. reflexivity.
Defined.

(** X8: a caller that is not root and sets an owner filter is refused with
    [InvalidArguments] once the marker is decoded, before the store is
    asked; a marker that does not decode is reported first. *)
Theorem owner_filter_is_for_root :
  forall {St E} (C : Collaborators E) (storage : PipelineStore St)
         (marker : string) (maxKeys : Z) (userFilter nameFilter : list string)
         (w : World.t St E),
    IsRootUser C (RequestContext.UserName (World.ctx w)) = false ->
    userFilter <> [] ->
    let failed code :=
      World.mk (RequestContext.setErrorCode code (World.ctx w))
               (World.store w) (World.fsenv w) in
    exists err,
      ListPipeline C storage marker maxKeys userFilter nameFilter w
      = ((ListPipelineResponse.zero, Some err),
         failed (if negb (String.eqb marker "")
                 then match snd (DecryptPk C marker) with
                      | Some _ => InvalidMarker
                      | None => InvalidArguments
                      end
                 else InvalidArguments)).
Proof.
  intros St E C storage marker maxKeys userFilter nameFilter w Hroot Hf failed.
  subst failed. unfold ListPipeline; unfold_monad; simpl.
  destruct userFilter as [| u us]; [contradiction |].
  destruct (String.eqb marker ""); simpl.
  - rewrite Hroot; simpl. eauto.
  - destruct (DecryptPk C marker) as [pk [e |]]; simpl; [eauto |].
    rewrite Hroot; simpl. eauto.
Qed.

Lemma owner_filter_is_for_root_witness :
  exists err,
    ListPipeline Demo.collab RefStore.storage "" 10 ["bob"] []
      (Demo.world "alice" Demo.oneVersion [])
    = ((ListPipelineResponse.zero, Some err),
       World.mk (RequestContext.mk "alice" InvalidArguments) Demo.oneVersion []).
Proof.
  apply (owner_filter_is_for_root Demo.collab RefStore.storage "" 10 ["bob"] []
           (Demo.world "alice" Demo.oneVersion [])).
  - vm_compute. reflexivity.
  - discriminate.
Defined.

(** ** What a successful get returns *)

(** X9: a successful [GetPipeline] was asked by root or by the owner; it
    returns the brief of the definition's row and the briefs of the page of
    versions the store gives for that definition, the decoded cursor, the
    page size and the file-system filter, and it echoes the page size. *)
Theorem get_returns_definition_and_page :
  forall {St E} (C : Collaborators E) (storage : PipelineStore St)
         (pipelineID marker : string) (maxKeys : Z) (fsFilter : list string)
         (w w' : World.t St E) (resp : GetPipelineResponse.t),
    GetPipeline C storage pipelineID marker maxKeys fsFilter w
    = ((resp, None), w') ->
    let userName := RequestContext.UserName (World.ctx w) in
    let row := store_GetPipelineByID storage pipelineID (World.store w) in
    let pk := if String.eqb marker "" then 0 else fst (DecryptPk C marker) in
    let page :=
      store_ListPipelineVersion storage pipelineID pk maxKeys fsFilter
        (World.store w) in
    snd row = None
    /\ (IsRootUser C userName = true
        \/ userName = Pipeline.UserName (fst row))
    /\ GetPipelineResponse.Pipeline resp = updateFromPipelineModel C (fst row)
    /\ snd page = None
    /\ PipelineVersions.PipelineVersionList
         (GetPipelineResponse.PipelineVersions resp)
       = Some (map (updateFromPipelineVersionModel C) (fst page))
    /\ MarkerInfo.MaxKeys
         (PipelineVersions.Marker (GetPipelineResponse.PipelineVersions resp))
       = maxKeys.
Proof.
  intros St E C storage pipelineID marker maxKeys fsFilter w w' resp.
  unfold GetPipeline; unfold_monad; simpl.
  destruct (store_GetPipelineByID storage pipelineID (World.store w))
    as [row [e |]] eqn:Hrow; simpl;
    [destruct (errors_Is_ErrRecordNotFound e); simpl; intros H; discriminate H |].
  destruct (negb (IsRootUser C (RequestContext.UserName (World.ctx w)))
            && negb (String.eqb (RequestContext.UserName (World.ctx w))
                       (Pipeline.UserName row))) eqn:Hauth; simpl;
    [intros H; discriminate H |].
  assert (Hwho : IsRootUser C (RequestContext.UserName (World.ctx w)) = true
                 \/ RequestContext.UserName (World.ctx w) = Pipeline.UserName row).
  { apply andb_false_iff in Hauth. destruct Hauth as [H | H];
      apply negb_false_iff in H; [left; exact H | right].
    apply String.eqb_eq. exact H. }
  destruct (String.eqb marker "") eqn:Hm; simpl;
    split_all; intros H; inversion H; subst; clear H; simpl;
    repeat match goal with
           | Hp : ?f = (_, _) |- context [?f] => rewrite Hp; simpl
           end;
    repeat split; try reflexivity; try exact Hwho.
Qed.

Lemma get_returns_definition_and_page_witness :
  let w := Demo.world "alice" Demo.twoVersions [] in
  let result := GetPipeline Demo.collab RefStore.storage "ppl-1" "" 1 [] w in
  let resp := fst (fst result) in
  let row := RefStore.GetPipelineByID "ppl-1" Demo.twoVersions in
  let page := RefStore.ListPipelineVersion "ppl-1" 0 1 [] Demo.twoVersions in
  snd row = None
  /\ (IsRootUser Demo.collab "alice" = true
      \/ "alice"%string = Pipeline.UserName (fst row))
  /\ GetPipelineResponse.Pipeline resp
     = updateFromPipelineModel Demo.collab (fst row)
  /\ snd page = None
  /\ PipelineVersions.PipelineVersionList (GetPipelineResponse.PipelineVersions resp)
     = Some (map (updateFromPipelineVersionModel Demo.collab) (fst page))
  /\ MarkerInfo.MaxKeys
       (PipelineVersions.Marker (GetPipelineResponse.PipelineVersions resp))
     = 1.
Proof.
  intros w result resp row page.
  apply (get_returns_definition_and_page Demo.collab RefStore.storage
           "ppl-1" "" 1 [] w (snd result) resp).
  vm_compute. reflexivity.
Defined.

(** A version permission check that reports an error does not grant. *)
Lemma version_check_error_refuses :
  forall {St E} (C : Collaborators E) (storage : PipelineStore St)
         (userName pipelineID pipelineVersionID : string) (st : St)
         (auth : bool) (ppl : Pipeline.t) (v : PipelineVersion.t) (e : error),
    CheckPipelineVersionPermission C storage userName pipelineID
      pipelineVersionID st
    = (auth, ppl, v, Some e) ->
    auth = false.
Proof.
  intros St E C storage userName pipelineID pipelineVersionID st auth ppl v e.
  unfold CheckPipelineVersionPermission, CheckPipelinePermission.
  split_all; intros H; inversion H; reflexivity.
Qed.

(** X10: [GetPipelineVersion] succeeds exactly when the version permission
    check grants access; it then returns the briefs of the two rows of the
    check and leaves the context, the store and the file-system service as
    they were. *)
Theorem get_version_succeeds_iff_permitted :
  forall {St E} (C : Collaborators E) (storage : PipelineStore St)
         (pipelineID pipelineVersionID : string) (w : World.t St E),
    let check :=
      CheckPipelineVersionPermission C storage
        (RequestContext.UserName (World.ctx w)) pipelineID pipelineVersionID
        (World.store w) in
    let result := GetPipelineVersion C storage pipelineID pipelineVersionID w in
    (snd (fst result) = None <-> fst (fst (fst check)) = true)
    /\ (snd (fst result) = None ->
        result
        = ((GetPipelineVersionResponse.mk
              (updateFromPipelineModel C (snd (fst (fst check))))
              (updateFromPipelineVersionModel C (snd (fst check))),
            None),
           w)).
Proof.
  intros St E C storage pipelineID pipelineVersionID w check result.
  subst result. unfold GetPipelineVersion; unfold_monad; simpl. fold check.
  destruct w as [ctx st fs]. simpl in *.
  destruct check as [[[auth ppl] v] [e |]] eqn:Hcheck; simpl in *.
  - subst check. apply version_check_error_refuses in Hcheck. subst auth.
    split; [split; intros H; discriminate H | intros H; discriminate H].
  - destruct auth; simpl.
    + split; [split; reflexivity | reflexivity].
    + split; [split; intros H; discriminate H | intros H; discriminate H].
Qed.

(** ** Resolving the source of a request *)

(** X11: resolving the source changes nothing of the request but its path,
    and the path only when the request has neither an inline payload nor a
    path: it is then ["./run.yaml"], also when the resolution fails. *)
Theorem resolving_only_defaults_the_path :
  forall {St E} (C : Collaborators E) (request : CreatePipelineRequest.t)
         (w : World.t St E),
    let request' := fst (fst (getPipelineYaml C request w)) in
    CreatePipelineRequest.FsName request' = CreatePipelineRequest.FsName request
    /\ CreatePipelineRequest.YamlRaw request' = CreatePipelineRequest.YamlRaw request
    /\ CreatePipelineRequest.UserName request'
       = CreatePipelineRequest.UserName request
    /\ CreatePipelineRequest.Desc request' = CreatePipelineRequest.Desc request
    /\ CreatePipelineRequest.YamlPath request'
       = (if String.eqb (CreatePipelineRequest.YamlRaw request) ""
             && String.eqb (CreatePipelineRequest.YamlPath request) ""
          then "./run.yaml"
          else CreatePipelineRequest.YamlPath request).
Proof.
  intros St E C request w request'. subst request'.
  destruct request as [fsName yamlPath yamlRaw userName desc].
  unfold_controller; unfold_monad; simpl.
  destruct (String.eqb yamlRaw ""); simpl;
    destruct (String.eqb yamlPath ""); simpl;
    split_all; repeat split.
Qed.

(** X12: a request with an inline payload is resolved without the
    file-system service: the world is left as it was.  It is resolved
    successfully exactly when it has no path, no file-system name and the
    payload decodes, and the bytes are then the decoded payload. *)
Theorem inline_source :
  forall {St E} (C : Collaborators E) (request : CreatePipelineRequest.t)
         (w : World.t St E),
    CreatePipelineRequest.YamlRaw request <> "" ->
    let result := getPipelineYaml C request w in
    let decoded := DecodeString C (CreatePipelineRequest.YamlRaw request) in
    snd result = w
    /\ (snd (snd (fst result)) = None <->
        CreatePipelineRequest.YamlPath request = ""
        /\ CreatePipelineRequest.FsName request = ""
        /\ snd decoded = None)
    /\ (snd (snd (fst result)) = None -> fst (snd (fst result)) = fst decoded).
Proof.
  intros St E C request w Hraw result decoded. subst result decoded.
  destruct request as [fsName yamlPath yamlRaw userName desc]; simpl in *.
  apply eqb_empty_false in Hraw.
  unfold_controller; unfold_monad; simpl. rewrite Hraw; simpl.
  destruct (String.eqb yamlPath "") eqn:Hp; simpl.
  - apply String.eqb_eq in Hp. subst yamlPath.
    destruct (String.eqb fsName "") eqn:Hf; simpl.
    + apply String.eqb_eq in Hf. subst fsName.
      destruct (DecodeString C yamlRaw) as [bytes [e |]]; simpl;
        repeat split; try discriminate; auto.
      intros (_ & _ & H). discriminate H.
    + apply String.eqb_neq in Hf.
      repeat split; try discriminate. intros (_ & H & _). contradiction.
  - apply String.eqb_neq in Hp.
    repeat split; try discriminate. intros (H & _). contradiction.
Qed.

Lemma inline_source_witness :
  let w := Demo.world "alice" RefStore.empty [] in
  let result := getPipelineYaml Demo.collab (Demo.inline "demo" "x") w in
  snd result = w
  /\ (snd (snd (fst result)) = None <->
      "" = "" /\ "" = "" /\ snd (DecodeString Demo.collab "demo") = None)
  /\ (snd (snd (fst result)) = None ->
      fst (snd (fst result)) = fst (DecodeString Demo.collab "demo")).
Proof.
  intros w result.
  apply (inline_source Demo.collab (Demo.inline "demo" "x") w).
  simpl. discriminate.
Defined.

(** X13: a request without inline payload needs a file-system name: without
    one it fails before the file-system service is asked.  When it is
    resolved, the name was resolved for the caller and the request's user
    name, and the bytes are those of the file at the request's path, or at
    ["./run.yaml"] when the request has none, on the resolved file
    system. *)
Theorem file_source :
  forall {St E} (C : Collaborators E) (request : CreatePipelineRequest.t)
         (w : World.t St E),
    CreatePipelineRequest.YamlRaw request = "" ->
    let result := getPipelineYaml C request w in
    let path :=
      if String.eqb (CreatePipelineRequest.YamlPath request) ""
      then "./run.yaml" else CreatePipelineRequest.YamlPath request in
    (CreatePipelineRequest.FsName request = "" ->
     snd result = w /\ snd (snd (fst result)) <> None)
    /\ (snd (snd (fst result)) = None ->
        exists fsID fs1,
          CheckFsAndGetID C (RequestContext.UserName (World.ctx w))
            (CreatePipelineRequest.UserName request)
            (CreatePipelineRequest.FsName request) (World.fsenv w)
          = ((fsID, None), fs1)
          /\ ReadFileFromFs C fsID path fs1
             = ((fst (snd (fst result)), None), World.fsenv (snd result))).
Proof.
  intros St E C request w Hraw result path. subst result path.
  destruct request as [fsName yamlPath yamlRaw userName desc]; simpl in *.
  subst yamlRaw. destruct w as [ctx st fs].
  unfold_controller; unfold_monad; simpl.
  destruct (String.eqb yamlPath "") eqn:Hp; simpl;
    (destruct (String.eqb fsName "") eqn:Hf; simpl;
     [split; [intros _; split; [reflexivity | discriminate]
             | intros H; discriminate H]
     | apply String.eqb_neq in Hf; split; [intros H; contradiction |];
       split_all; intros H; try discriminate H;
       do 2 eexists; split; [reflexivity | eassumption]]).
Qed.

Lemma file_source_witness :
  let w := Demo.world "alice" RefStore.empty [("fs-alice-fs1", None)] in
  let result := getPipelineYaml Demo.collab DemoFs.fromFs w in
  exists fsID fs1,
    Demo.resolveFs "alice" "" "fs1" [("fs-alice-fs1", None)] = ((fsID, None), fs1)
    /\ Demo.readFile fsID "./run.yaml" fs1
       = ((fst (snd (fst result)), None), World.fsenv (snd result)).
Proof.
  intros w result.
  apply (proj2 (file_source Demo.collab DemoFs.fromFs w eq_refl)).
  vm_compute. reflexivity.
Defined.

(** X14: a create or update request with neither an inline payload nor a
    file-system name fails with [InvalidArguments]; neither the store nor
    the file-system service nor the validator is reached. *)
Theorem request_without_source :
  forall {St E} (C : Collaborators E) (storage : PipelineStore St)
         (request : CreatePipelineRequest.t) (pipelineID : string)
         (w : World.t St E),
    CreatePipelineRequest.YamlRaw request = "" ->
    CreatePipelineRequest.FsName request = "" ->
    let failed :=
      World.mk (RequestContext.setErrorCode InvalidArguments (World.ctx w))
               (World.store w) (World.fsenv w) in
    (exists err,
       CreatePipeline C storage request w
       = ((CreatePipelineResponse.zero, Some err), failed))
    /\ (exists err,
          UpdatePipeline C storage request pipelineID w
          = ((UpdatePipelineResponse.zero, Some err), failed)).
Proof.
  intros St E C storage request pipelineID w Hraw Hfs failed. subst failed.
  destruct request as [fsName yamlPath yamlRaw userName desc]; simpl in *.
  subst yamlRaw fsName.
  unfold_controller; unfold_monad; simpl.
  destruct (MaxDescLength C <? String.length desc)%nat; simpl;
    [split; eauto |].
  destruct (String.eqb yamlPath ""); simpl; split; eauto.
Qed.

Lemma request_without_source_witness :
  exists err,
    CreatePipeline Demo.collab RefStore.storage
      (CreatePipelineRequest.mk "" "a.yaml" "" "" "x")
      (Demo.world "alice" RefStore.empty [])
    = ((CreatePipelineResponse.zero, Some err),
       World.mk (RequestContext.mk "alice" InvalidArguments) RefStore.empty []).
Proof.
  apply (proj1 (request_without_source Demo.collab RefStore.storage
                  (CreatePipelineRequest.mk "" "a.yaml" "" "" "x") ""
                  (Demo.world "alice" RefStore.empty []) eq_refl eq_refl)).
Defined.

(** X15: a description longer than [MaxDescLength] bytes makes create and
    update fail with [InvalidArguments] before anything else is looked at:
    the error names the bound, and the store and the file-system service
    are not reached, whatever the rest of the request is. *)
Theorem long_description_is_refused :
  forall {St E} (C : Collaborators E) (storage : PipelineStore St)
         (request : CreatePipelineRequest.t) (pipelineID : string)
         (w : World.t St E),
    (MaxDescLength C < String.length (CreatePipelineRequest.Desc request))%nat ->
    let failed :=
      World.mk (RequestContext.setErrorCode InvalidArguments (World.ctx w))
               (World.store w) (World.fsenv w) in
    let err :=
      Errorf "desc too long, should be less than %d"
        [ArgD (Z.of_nat (MaxDescLength C))] in
    CreatePipeline C storage request w
    = ((CreatePipelineResponse.zero, Some err), failed)
    /\ UpdatePipeline C storage request pipelineID w
       = ((UpdatePipelineResponse.zero, Some err), failed).
Proof.
  intros St E C storage request pipelineID w Hlong failed err.
  subst failed err. apply Nat.ltb_lt in Hlong.
  unfold CreatePipeline, UpdatePipeline; unfold_monad.
  rewrite Hlong. split; reflexivity.
Qed.

Lemma long_description_is_refused_witness :
  CreatePipeline Demo.collab RefStore.storage (Demo.inline "demo" longDesc)
    (Demo.world "alice" RefStore.empty [])
  = ((CreatePipelineResponse.zero,
      Some (Errorf "desc too long, should be less than %d" [ArgD 1024])),
     World.mk (RequestContext.mk "alice" InvalidArguments) RefStore.empty []).
Proof.
  apply (proj1 (long_description_is_refused Demo.collab RefStore.storage
                  (Demo.inline "demo" longDesc) ""
                  (Demo.world "alice" RefStore.empty [])
                  ltac:(apply Nat.ltb_lt; vm_compute; reflexivity))).
Defined.

(** ** Validating a workflow *)

(** X16: [validateWorkflowForPipeline] returns the empty name with every
    error.  When it succeeds, the name is the one of the parsed workflow
    source, and the workflow was built under the run name
    [validatePipeline]; the file-system service is asked only when the
    source names a main file system, and then for the caller and the
    request's user name. *)
Theorem validation_returns_the_source_name :
  forall {St E} (C : Collaborators E) (pipelineYaml ctxUsername reqUsername : string)
         (w : World.t St E),
    let result := validateWorkflowForPipeline C pipelineYaml ctxUsername reqUsername w in
    let wfs := fst (GetWorkflowSource C pipelineYaml) in
    let mainFs := WorkflowSource.FsOptions_MainFS_Name wfs in
    (snd (fst result) <> None -> fst (fst result) = "")
    /\ (snd (fst result) = None ->
        snd (GetWorkflowSource C pipelineYaml) = None
        /\ fst (fst result) = WorkflowSource.Name wfs
        /\ (exists extra, NewWorkflow C wfs "validatePipeline" extra = (true, None))
        /\ (mainFs = "" -> snd result = w)
        /\ (mainFs <> "" ->
            exists fsID,
              CheckFsAndGetID C ctxUsername reqUsername mainFs (World.fsenv w)
              = ((fsID, None), World.fsenv (snd result)))).
Proof.
  intros St E C pipelineYaml ctxUsername reqUsername w result wfs mainFs.
  subst result mainFs wfs. destruct w as [ctx st fs].
  unfold validateWorkflowForPipeline; unfold_monad; simpl.
  destruct (GetWorkflowSource C pipelineYaml) as [wfs [e |]]; simpl;
    [split; [reflexivity | intros H; discriminate H] |].
  destruct (String.eqb (WorkflowSource.FsOptions_MainFS_Name wfs) "") eqn:Hm; simpl;
    [apply String.eqb_eq in Hm | apply String.eqb_neq in Hm];
    split_all;
    (split;
     [intros Hn; first [reflexivity | exfalso; apply Hn; reflexivity]
     | intros H; try discriminate H]);
    (split; [reflexivity |]); (split; [reflexivity |]);
    match goal with
    | Hb : negb ?b = false |- _ => destruct b; [| discriminate Hb]
    end;
    (split; [eexists; eassumption |]);
    (split; [intros Hyes; first [reflexivity | contradiction]
            | intros Hno; first [contradiction | eexists; reflexivity]]).
Qed.

(** ** The writes of create and update *)

Section UpdateSteps.

Context {St E : Type}.
Variable C : Collaborators E.
Variable storage : PipelineStore St.
Variables request request' : CreatePipelineRequest.t.
Variable pipelineID : string.
Variables w w1 w2 : World.t St E.
Variables yaml name : string.

Hypothesis desc_ok :
  (String.length (CreatePipelineRequest.Desc request) <= MaxDescLength C)%nat.
Hypothesis resolved :
  getPipelineYaml C request w = ((request', (yaml, None)), w1).
Hypothesis validated :
  validateWorkflowForPipeline C yaml (RequestContext.UserName (World.ctx w))
    (CreatePipelineRequest.UserName request') w1
  = ((name, None), w2).

(** [UpdatePipeline] from its permission check on. *)
Lemma UpdatePipeline_from_permission :
  let userName := RequestContext.UserName (World.ctx w) in
  let failed code :=
    World.mk (RequestContext.setErrorCode code (World.ctx w))
             (World.store w) (World.fsenv w2) in
  UpdatePipeline C storage request pipelineID w
  = (let '(hasAuth, ppl, err) :=
       CheckPipelinePermission C storage userName pipelineID (World.store w) in
     match err with
     | Some err =>
         ((UpdatePipelineResponse.zero,
           Some (Errorf "update pipeline[%s] failed. err:%v"
                   [ArgS pipelineID; ArgV err])),
          failed InvalidArguments)
     | None =>
         if negb hasAuth then
           ((UpdatePipelineResponse.zero,
             Some (Errorf "update pipeline[%s] failed. Access denied for user[%s]"
                     [ArgS pipelineID; ArgS userName])),
            failed AccessDenied)
         else if negb (String.eqb (Pipeline.Name ppl) name) then
           ((UpdatePipelineResponse.zero,
             Some (Errorf
                "update pipeline failed, pplname[%s] in yaml not the same as [%s] of pipeline[%s]"
                [ArgS name; ArgS (Pipeline.Name ppl); ArgS pipelineID])),
            failed InvalidArguments)
         else
           let '(fsID, w3) :=
             (if negb (String.eqb (CreatePipelineRequest.FsName request') "")
              then
                let '((fsID, err), e) :=
                  CheckFsAndGetID C userName
                    (CreatePipelineRequest.UserName request')
                    (CreatePipelineRequest.FsName request') (World.fsenv w2) in
                match err with
                | Some _ =>
                    (fsID,
                     World.mk
                       (RequestContext.setErrorCode InternalError (World.ctx w))
                       (World.store w) e)
                | None => (fsID, World.mk (World.ctx w) (World.store w) e)
                end
              else (""%string,
                    World.mk (World.ctx w) (World.store w) (World.fsenv w2))) in
           let pplVersion :=
             PipelineVersion.mk 0 "" pipelineID fsID
               (CreatePipelineRequest.FsName request')
               (CreatePipelineRequest.YamlPath request')
               yaml (GetMD5Hash C yaml) userName 0 0 in
           let '((pplID, pplVersionID, err), st') :=
             store_UpdatePipeline storage
               (Pipeline.setDesc (CreatePipelineRequest.Desc request) ppl)
               pplVersion (World.store w) in
           match err with
           | Some err =>
               ((UpdatePipelineResponse.zero,
                 Some (Errorf "update pipeline failed inserting db. error:%s"
                         [ArgV err])),
                World.mk (RequestContext.setErrorCode InternalError (World.ctx w3))
                         st' (World.fsenv w3))
           | None =>
               ((UpdatePipelineResponse.mk pplID pplVersionID, None),
                World.mk (World.ctx w3) st' (World.fsenv w3))
           end
     end).
Proof.
  intros userName failed.
  destruct (resolved_frame C _ _ _ _ _ resolved) as [Hc1 Hs1].
  destruct (validated_frame C _ _ _ _ _ _ _ resolved validated) as [Hc2 Hs2].
  pose proof (resolved_desc C _ _ _ _ _ desc_ok resolved) as Hd.
  unfold UpdatePipeline; unfold_monad.
  apply Nat.ltb_ge in desc_ok. rewrite desc_ok.
  rewrite resolved. cbv beta iota. rewrite Hc1.
  fold userName. fold userName in validated. rewrite validated. cbv beta iota.
  subst failed.
  destruct w2 as [c2 s2 e2]; simpl in *; subst c2 s2.
  rewrite Hd.
  split_all; reflexivity.
Qed.

End UpdateSteps.

(** X17: once the workflow of an update request validated to a name, the
    update is refused without a write when the definition cannot be looked
    up ([InvalidArguments]), when the caller is neither root nor its owner
    ([AccessDenied]), and when the validated name differs from the name of
    the definition ([InvalidArguments]): an update cannot rename. *)
Theorem update_is_refused :
  forall {St E} (C : Collaborators E) (storage : PipelineStore St)
         (request request' : CreatePipelineRequest.t) (pipelineID : string)
         (w w1 w2 : World.t St E) (yaml name : string),
    (String.length (CreatePipelineRequest.Desc request) <= MaxDescLength C)%nat ->
    getPipelineYaml C request w = ((request', (yaml, None)), w1) ->
    validateWorkflowForPipeline C yaml (RequestContext.UserName (World.ctx w))
      (CreatePipelineRequest.UserName request') w1
    = ((name, None), w2) ->
    let check :=
      CheckPipelinePermission C storage (RequestContext.UserName (World.ctx w))
        pipelineID (World.store w) in
    let result := UpdatePipeline C storage request pipelineID w in
    let failed code :=
      World.mk (RequestContext.setErrorCode code (World.ctx w))
               (World.store w) (World.fsenv w2) in
    (snd check <> None ->
     exists err,
       result = ((UpdatePipelineResponse.zero, Some err), failed InvalidArguments))
    /\ (snd check = None -> fst (fst check) = false ->
        exists err,
          result = ((UpdatePipelineResponse.zero, Some err), failed AccessDenied))
    /\ (snd check = None -> fst (fst check) = true ->
        Pipeline.Name (snd (fst check)) <> name ->
        exists err,
          result = ((UpdatePipelineResponse.zero, Some err), failed InvalidArguments)).
Proof.
  intros St E C storage request request' pipelineID w w1 w2 yaml name Hd Hr Hv
         check result failed.
  subst result.
  rewrite (UpdatePipeline_from_permission C storage _ _ pipelineID _ _ _ _ _ Hd Hr Hv).
  cbv zeta. subst failed. fold check.
  destruct check as [[auth ppl] [e |]]; simpl.
  - repeat split; eauto; intros H; discriminate H.
  - destruct auth; simpl.
    + split; [intros H; exfalso; apply H; reflexivity |].
      split; [intros _ H; discriminate H |].
      intros _ _ Hn. apply String.eqb_neq in Hn. rewrite Hn. simpl. eauto.
    + split; [intros H; exfalso; apply H; reflexivity |].
      split; [eauto | intros _ H; discriminate H].
Qed.

Lemma update_is_refused_witness :
  let w := Demo.world "alice" Demo.oneVersion [] in
  exists err,
    UpdatePipeline Demo.collab RefStore.storage (Demo.inline "renamed" "y") "ppl-1" w
    = ((UpdatePipelineResponse.zero, Some err),
       World.mk (RequestContext.mk "alice" InvalidArguments) Demo.oneVersion []).
Proof.
  intros w.
  refine (proj2 (proj2 (update_is_refused Demo.collab RefStore.storage
                          (Demo.inline "renamed" "y") (Demo.inline "renamed" "y")
                          "ppl-1" w w w "renamed" "renamed" _ _ _)) _ _ _).
  - simpl. lia.
  - vm_compute. reflexivity.
  - vm_compute. reflexivity.
  - vm_compute. reflexivity.
  - vm_compute. reflexivity.
  - vm_compute. discriminate.
Defined.

(** X18: an update that passed its checks gives the store the definition's
    row with the description of the request, and a version row for the
    target definition that is owned by the caller and holds the resolved
    path, the resolved bytes and their MD5; without a file-system name the
    version has no file-system id.  When the store's update succeeds, the
    response carries the identifiers the store returned. *)
Theorem update_writes :
  forall {St E} (C : Collaborators E) (storage : PipelineStore St)
         (request request' : CreatePipelineRequest.t) (pipelineID : string)
         (w w1 w2 : World.t St E) (yaml name : string) (ppl : Pipeline.t),
    (String.length (CreatePipelineRequest.Desc request) <= MaxDescLength C)%nat ->
    getPipelineYaml C request w = ((request', (yaml, None)), w1) ->
    validateWorkflowForPipeline C yaml (RequestContext.UserName (World.ctx w))
      (CreatePipelineRequest.UserName request') w1
    = ((name, None), w2) ->
    CheckPipelinePermission C storage (RequestContext.UserName (World.ctx w))
      pipelineID (World.store w)
    = (true, ppl, None) ->
    Pipeline.Name ppl = name ->
    let userName := RequestContext.UserName (World.ctx w) in
    let result := UpdatePipeline C storage request pipelineID w in
    exists fsID,
      let written :=
        store_UpdatePipeline storage
          (Pipeline.setDesc (CreatePipelineRequest.Desc request) ppl)
          (PipelineVersion.mk 0 "" pipelineID fsID
             (CreatePipelineRequest.FsName request)
             (CreatePipelineRequest.YamlPath request')
             yaml (GetMD5Hash C yaml) userName 0 0)
          (World.store w) in
      World.store (snd result) = snd written
      /\ (CreatePipelineRequest.FsName request = "" -> fsID = "")
      /\ (forall pplID pplVersionID,
            fst written = (pplID, pplVersionID, None) ->
            fst result = (UpdatePipelineResponse.mk pplID pplVersionID, None)).
Proof.
  intros St E C storage request request' pipelineID w w1 w2 yaml name ppl
         Hd Hr Hv Hp Hn userName result.
  subst result.
  rewrite (UpdatePipeline_from_permission C storage _ _ pipelineID _ _ _ _ _ Hd Hr Hv).
  cbv zeta. fold userName. fold userName in Hp. rewrite Hp. cbv beta iota.
  simpl negb. cbv iota.
  apply String.eqb_eq in Hn. rewrite Hn. simpl negb. cbv iota.
  rewrite (resolved_FsName C _ _ _ _ _ Hr).
  destruct (String.eqb (CreatePipelineRequest.FsName request) "") eqn:Hf;
    simpl negb; cbv iota.
  - exists ""%string.
    destruct (store_UpdatePipeline storage _ _ (World.store w))
      as [[[pplID vID] [e |]] st']; simpl; repeat split; auto;
      intros a b H; inversion H; subst; reflexivity.
  - apply String.eqb_neq in Hf.
    destruct (CheckFsAndGetID C userName (CreatePipelineRequest.UserName request')
                (CreatePipelineRequest.FsName request) (World.fsenv w2))
      as [[fsID [e |]] fs3]; exists fsID;
      destruct (store_UpdatePipeline storage _ _ (World.store w))
        as [[[pplID vID] [e' |]] st']; simpl; repeat split; auto;
        try (intros H; contradiction);
        intros a b H; inversion H; subst; reflexivity.
Qed.

Lemma update_writes_witness :
  let w := Demo.world "alice" Demo.oneVersion [] in
  let result :=
    UpdatePipeline Demo.collab RefStore.storage (Demo.inline "demo" "y") "ppl-1" w in
  exists fsID,
    let written :=
      RefStore.UpdatePipeline
        (Pipeline.setDesc "y" (hd Pipeline.zero (RefStore.pipelines Demo.oneVersion)))
        (PipelineVersion.mk 0 "" "ppl-1" fsID "" "" "demo" "demo" "alice" 0 0)
        Demo.oneVersion in
    World.store (snd result) = snd written
    /\ ("" = "" -> fsID = "")
    /\ (forall pplID pplVersionID,
          fst written = (pplID, pplVersionID, None) ->
          fst result = (UpdatePipelineResponse.mk pplID pplVersionID, None)).
Proof.
  intros w result.
  apply (update_writes Demo.collab RefStore.storage
           (Demo.inline "demo" "y") (Demo.inline "demo" "y") "ppl-1" w w w
           "demo" "demo" (hd Pipeline.zero (RefStore.pipelines Demo.oneVersion))).
  - simpl. lia.
  - vm_compute. reflexivity.
  - vm_compute. reflexivity.
  - vm_compute. reflexivity.
  - vm_compute. reflexivity.
Defined.

(** X19: a create that found no definition of the validated name gives the
    store a definition row of that name with the description of the request,
    and a version row holding the resolved path, the resolved bytes and
    their MD5; both rows are owned by the caller, whatever user name the
    request carries, and without a file-system name the version has no
    file-system id.  When the store's create succeeds, the response carries
    the identifiers the store returned and the validated name. *)
Theorem create_writes :
  forall {St E} (C : Collaborators E) (storage : PipelineStore St)
         (request request' : CreatePipelineRequest.t)
         (w w1 w2 : World.t St E) (yaml name : string)
         (found : Pipeline.t) (missing : error),
    (String.length (CreatePipelineRequest.Desc request) <= MaxDescLength C)%nat ->
    getPipelineYaml C request w = ((request', (yaml, None)), w1) ->
    validateWorkflowForPipeline C yaml (RequestContext.UserName (World.ctx w))
      (CreatePipelineRequest.UserName request') w1
    = ((name, None), w2) ->
    store_GetPipeline storage name (RequestContext.UserName (World.ctx w))
      (World.store w)
    = (found, Some missing) ->
    errors_Is_ErrRecordNotFound missing = true ->
    let userName := RequestContext.UserName (World.ctx w) in
    let result := CreatePipeline C storage request w in
    exists fsID,
      let written :=
        store_CreatePipeline storage
          (Pipeline.mk 0 "" name (CreatePipelineRequest.Desc request) userName 0 0)
          (PipelineVersion.mk 0 "" "" fsID
             (CreatePipelineRequest.FsName request)
             (CreatePipelineRequest.YamlPath request')
             yaml (GetMD5Hash C yaml) userName 0 0)
          (World.store w) in
      World.store (snd result) = snd written
      /\ (CreatePipelineRequest.FsName request = "" -> fsID = "")
      /\ (forall pplID pplVersionID,
            fst written = (pplID, pplVersionID, None) ->
            fst result = (CreatePipelineResponse.mk pplID pplVersionID name, None)).
Proof.
  intros St E C storage request request' w w1 w2 yaml name found missing
         Hd Hr Hv Hl Hm userName result.
  subst result.
  rewrite (CreatePipeline_from_lookup C storage _ _ _ _ _ _ _ Hd Hr Hv).
  cbv zeta. fold userName. fold userName in Hl. rewrite Hl. cbv beta iota.
  rewrite Hm. simpl negb. cbv iota.
  rewrite (resolved_FsName C _ _ _ _ _ Hr).
  destruct (String.eqb (CreatePipelineRequest.FsName request) "") eqn:Hf;
    simpl negb; cbv iota.
  - exists ""%string.
    destruct (store_CreatePipeline storage _ _ (World.store w))
      as [[[pplID vID] [e |]] st']; simpl; repeat split; auto;
      intros a b H; inversion H; subst; reflexivity.
  - apply String.eqb_neq in Hf.
    destruct (CheckFsAndGetID C userName (CreatePipelineRequest.UserName request')
                (CreatePipelineRequest.FsName request) (World.fsenv w2))
      as [[fsID [e |]] fs3]; exists fsID;
      destruct (store_CreatePipeline storage _ _ (World.store w))
        as [[[pplID vID] [e' |]] st']; simpl; repeat split; auto;
        try (intros H; contradiction);
        intros a b H; inversion H; subst; reflexivity.
Qed.

Lemma create_writes_witness :
  let w := Demo.world "root" Demo.oneVersion [] in
  let request := CreatePipelineRequest.mk "" "" "demo" "alice" "x" in
  let result := CreatePipeline Demo.collab RefStore.storage request w in
  exists fsID,
    let written :=
      RefStore.CreatePipeline
        (Pipeline.mk 0 "" "demo" "x" "root" 0 0)
        (PipelineVersion.mk 0 "" "" fsID "" "" "demo" "demo" "root" 0 0)
        Demo.oneVersion in
    World.store (snd result) = snd written
    /\ ("" = "" -> fsID = "")
    /\ (forall pplID pplVersionID,
          fst written = (pplID, pplVersionID, None) ->
          fst result = (CreatePipelineResponse.mk pplID pplVersionID "demo", None)).
Proof.
  intros w request result.
  apply (create_writes Demo.collab RefStore.storage request request w w w
           "demo" "demo" Pipeline.zero ErrRecordNotFound).
  - simpl. lia.
  - vm_compute. reflexivity.
  - vm_compute. reflexivity.
  - vm_compute. reflexivity.
  - reflexivity.
Defined.

(** ** Writes and outcomes *)

(** X20: an operation that returns an error has left the store as it was,
    unless the error is the one of its own store write; an operation that
    returns no error is a query, which leaves the store as it was, or has
    done its store write, and the store reported no error.  A delete writes
    for the requested identifiers only, an update for the requested
    definition only. *)
Theorem outcome_and_write :
  forall {St E} (C : Collaborators E) (storage : PipelineStore St)
         (op : Operation) (w w' : World.t St E) (resp : Response)
         (err : option error),
    serve C storage op w = ((resp, err), w') ->
    (err <> None ->
     World.store w' = World.store w
     \/ exists e, storeWrite storage op (World.store w) (Some e, World.store w'))
    /\ (err = None ->
        isQuery op = true /\ World.store w' = World.store w
        \/ storeWrite storage op (World.store w) (None, World.store w')).
Proof.
  intros St E C storage op w w' resp err.
  destruct op; unfold_controller; unfold_monad; simpl;
    split_all; intros H; inversion H; subst; clear H;
    (split; intros Herr;
     [try (exfalso; apply Herr; reflexivity) | try discriminate Herr]);
    close_store_write.
Qed.

Lemma outcome_and_write_witness :
  let w := Demo.world "alice" DemoSchedules.ended [] in
  let result := serve Demo.collab RefStore.storage (OpDeletePipeline "ppl-1") w in
  RefStore.DeletePipeline "ppl-1" DemoSchedules.ended
  = (None, World.store (snd result)).
Proof.
  intros w result.
  destruct (outcome_and_write Demo.collab RefStore.storage (OpDeletePipeline "ppl-1")
              w (snd result) (fst (fst result)) (snd (fst result)))
    as [_ Hok].
  - vm_compute. reflexivity.
  - destruct Hok as [[Hq _] | Hw].
    + vm_compute. reflexivity.
    + discriminate Hq.
    + exact Hw.
Defined.

(** ** A workflow that does not validate *)

(** X21: when the workflow of a request does not validate, create and
    update fail with [MalformedYaml] and write nothing.  Update does so
    before it looks the definition up: the answer is the same for a
    definition that does not exist or belongs to someone else. *)
Theorem malformed_workflow :
  forall {St E} (C : Collaborators E) (storage : PipelineStore St)
         (request request' : CreatePipelineRequest.t) (pipelineID : string)
         (w w1 w2 : World.t St E) (yaml name : string) (e : error),
    (String.length (CreatePipelineRequest.Desc request) <= MaxDescLength C)%nat ->
    getPipelineYaml C request w = ((request', (yaml, None)), w1) ->
    validateWorkflowForPipeline C yaml (RequestContext.UserName (World.ctx w))
      (CreatePipelineRequest.UserName request') w1
    = ((name, Some e), w2) ->
    let failed :=
      World.mk (RequestContext.setErrorCode MalformedYaml (World.ctx w))
               (World.store w) (World.fsenv w2) in
    let err := Errorf "validateWorkflowForPipeline failed. err:%v" [ArgV e] in
    CreatePipeline C storage request w
    = ((CreatePipelineResponse.zero, Some err), failed)
    /\ UpdatePipeline C storage request pipelineID w
       = ((UpdatePipelineResponse.zero, Some err), failed).
Proof.
  intros St E C storage request request' pipelineID w w1 w2 yaml name e
         Hd Hr Hv failed err.
  subst failed err.
  destruct (resolved_frame C _ _ _ _ _ Hr) as [Hc1 Hs1].
  pose proof (validateWorkflowForPipeline_frame C yaml
                (RequestContext.UserName (World.ctx w))
                (CreatePipelineRequest.UserName request') w1) as [Hc2 Hs2].
  rewrite Hv in Hc2, Hs2. simpl in Hc2, Hs2. rewrite Hc1 in Hc2. rewrite Hs1 in Hs2.
  apply Nat.ltb_ge in Hd.
  unfold CreatePipeline, UpdatePipeline; unfold_monad.
  rewrite Hd, Hr. cbv beta iota. rewrite Hc1, Hv. cbv beta iota.
  destruct w2 as [c2 s2 e2]; simpl in *; subst c2 s2.
  split; reflexivity.
Qed.

Lemma malformed_workflow_witness :
  let w := Demo.world "bob" Demo.oneVersion [] in
  snd (fst (UpdatePipeline strictCollab RefStore.storage (Demo.inline "demo" "y")
              "ppl-404" w))
  = Some (Errorf "validateWorkflowForPipeline failed. err:%v"
            [ArgV (Errorf "yaml: no workflow in [%s]" [ArgS "demo"])])
  /\ snd (UpdatePipeline strictCollab RefStore.storage (Demo.inline "demo" "y")
            "ppl-404" w)
     = World.mk (RequestContext.mk "bob" MalformedYaml) Demo.oneVersion [].
Proof.
  intros w.
  rewrite (proj2 (malformed_workflow strictCollab RefStore.storage
                    (Demo.inline "demo" "y") (Demo.inline "demo" "y") "ppl-404"
                    w w w "demo" ""
                    (Errorf "yaml: no workflow in [%s]" [ArgS "demo"])
                    ltac:(simpl; lia)
                    ltac:(vm_compute; reflexivity)
                    ltac:(vm_compute; reflexivity))).
  split; reflexivity.
Defined.
